(** * AI Legal Document Analyzer: clause pipeline

    A shallow embedding of the clause-analysis pipeline
    (ingest, classify, extract obligations, index, retrieve) and the
    properties of it that the specification states.

    Conventions.
    - A Python [str] is a [string]; every [ascii] stands for one code point
      below 256, so ASCII text is represented exactly.
    - A clause is a Python [dict] with string keys: a [gmap string pyval].
    - The clause list handed from stage to stage is one Python list of
      distinct dict objects that the stages mutate in place.  It is
      modelled as the state of a small state-and-exception monad; a slice
      [clauses[i:i+n]] shares its dicts with the list, which is modelled by
      running the callee on the slice and storing the dicts back.
    - Collaborators outside the repository (the JSON decoder, the
      generative model, the sentence encoder) are parameters. *)

From Stdlib Require Import QArith.QArith_base Ascii.
From stdpp Require Import base strings sorting gmap pretty numbers.
From stdpp Require Import list.

Local Open Scope string_scope.
Local Open Scope list_scope.
Local Open Scope Z_scope.

(** ** Python values *)

Inductive pyfloat :=
  | FNaN
  | FInf (negative : bool)
  | FFinite (q : Q).

#[warnings="-register-all"]
Inductive pyval :=
  | PyNone
  | PyBool (b : bool)
  | PyInt (z : Z)
  | PyFloat (f : pyfloat)
  | PyStr (s : string)
  | PyList (l : list pyval)
  | PyDict (d : gmap string pyval).

Abbreviation Clause := (gmap string pyval).

(** Exceptions are identified by their class. *)
Inductive exn :=
  | JSONDecodeError
  | ValueError
  | KeyError
  | TypeError
  | AttributeError
  | IndexError
  | AssertionError
  | RecursionError
  | ExternalError (name : string).

Inductive result (A : Type) :=
  | Ok (a : A)
  | Raise (e : exn).
Arguments Ok {A} a.
Arguments Raise {A} e.

(** [bool(v)] *)
Definition truthy (v : pyval) : bool :=
  match v with
  | PyNone => false
  | PyBool b => b
  | PyInt z => negb (z =? 0)
  | PyFloat FNaN => true
  | PyFloat (FInf _) => true
  | PyFloat (FFinite q) => negb (Qeq_bool q (inject_Z 0))
  | PyStr s => negb (String.eqb s "")
  | PyList l => negb (bool_decide (l = []))
  | PyDict d => negb (bool_decide (dom d = ∅))
  end.

(** ** Python string operations *)

Module Str.

Definition nl : string := String (Ascii.ascii_of_nat 10) "".
Definition dq : string := String (Ascii.ascii_of_nat 34) "".

(** [c.isspace()] for a code point below 256 *)
Definition isspace (c : Ascii.ascii) : bool :=
  let n := Ascii.N_of_ascii c in
  ((9 <=? n) && (n <=? 13) || (28 <=? n) && (n <=? 32)
   || (n =? 133) || (n =? 160))%N.

(** [c.lower()] for a code point below 256 *)
Definition lower_char (c : Ascii.ascii) : Ascii.ascii :=
  let n := Ascii.N_of_ascii c in
  if ((65 <=? n) && (n <=? 90) || (192 <=? n) && (n <=? 214)
      || (216 <=? n) && (n <=? 222))%N
  then Ascii.ascii_of_N (n + 32) else c.

Fixpoint lower (s : string) : string :=
  match s with
  | "" => ""
  | String c s' => String (lower_char c) (lower s')
  end.

Fixpoint lstrip (s : string) : string :=
  match s with
  | "" => ""
  | String c s' => if isspace c then lstrip s' else s
  end.

Fixpoint rstrip (s : string) : string :=
  match s with
  | "" => ""
  | String c s' =>
      let r := rstrip s' in
      if isspace c && String.eqb r "" then "" else String c r
  end.

(** [s.strip()] *)
Definition strip (s : string) : string := rstrip (lstrip s).

(** [s[n:]] for [n >= 0] *)
Fixpoint slice_from (n : nat) (s : string) : string :=
  match n, s with
  | S n', String _ s' => slice_from n' s'
  | _, _ => s
  end.

Fixpoint take (n : nat) (s : string) : string :=
  match n, s with
  | S n', String c s' => String c (take n' s')
  | _, _ => ""
  end.

(** [s[:-n]] for [n > 0] *)
Definition slice_to_neg (n : nat) (s : string) : string :=
  take (String.length s - n)%nat s.

(** [s.startswith(p)] *)
Definition startswith (p s : string) : bool := String.prefix p s.

(** [s.endswith(p)] *)
Definition endswith (p s : string) : bool :=
  (String.length p <=? String.length s)%nat
  && String.eqb (slice_from (String.length s - String.length p)%nat s) p.

(** [needle in hay] *)
Fixpoint contains (needle hay : string) : bool :=
  String.prefix needle hay
  || match hay with
     | "" => false
     | String _ hay' => contains needle hay'
     end.

(** [s.split(sep)] for a non-empty [sep]: the text is scanned from the
    left; [skip] counts the characters of a separator just matched that
    are still to be passed over, [cur] is the segment being collected. *)
Fixpoint split_go (sep s : string) (skip : nat) (cur : string) : list string :=
  match s with
  | "" => [cur]
  | String c s' =>
      match skip with
      | S skip' => split_go sep s' skip' cur
      | O =>
          if String.prefix sep s
          then cur :: split_go sep s' (String.length sep - 1)%nat ""
          else split_go sep s' O (cur +:+ String c "")
      end
  end.

Definition split (sep s : string) : list string := split_go sep s O "".

(** [list(enumerate(l))] *)
Definition enumerate {A} (l : list A) : list (nat * A) :=
  zip (seq 0 (length l)) l.

End Str.

(** ** Ingestion: [PDFIngestor.ingest] *)

Module PDFIngestor.

(** [f"page_{page_num+1}_clause_{i+1}"] *)
Definition clause_id (page_num i : nat) : string :=
  "page_" +:+ pretty (page_num + 1)%nat +:+ "_clause_" +:+ pretty (i + 1)%nat.

(** The dict literal appended for a kept segment. *)
Definition new_clause (page_num i : nat) (clause_text : string) : Clause :=
  <["id" := PyStr (clause_id page_num i)]>
    (<["text" := PyStr (Str.strip clause_text)]>
       (<["page" := PyInt (Z.of_nat page_num + 1)]> ∅)).

(** Body of the inner loop: [if clause_text.strip(): clauses.append(...)]. *)
Definition ingest_segment (page_num : nat) (clauses : list Clause)
    (ic : nat * string) : list Clause :=
  let '(i, clause_text) := ic in
  if truthy (PyStr (Str.strip clause_text))
  then clauses ++ [new_clause page_num i clause_text]
  else clauses.

(** Body of the outer loop, for the page whose text is [text]. *)
Definition ingest_page (clauses : list Clause) (pt : nat * string) : list Clause :=
  let '(page_num, text) := pt in
  foldl (ingest_segment page_num) clauses
    (Str.enumerate (Str.split (Str.nl +:+ Str.nl) text)).

(** [ingest]: the document is given by the text of its pages, in order,
    as [page.get_text("text")] returns them. *)
Definition ingest (document : list string) : list Clause :=
  foldl ingest_page [] (Str.enumerate document).

End PDFIngestor.

(** ** Dynamic operations on Python values *)

Module Py.

(** [for item in v]: the items the loop visits, or the [TypeError] of a
    value that is not iterable.  A dict yields its keys (their order is
    immaterial here: every key is a [str]). *)
Definition iter (v : pyval) : result (list pyval) :=
  match v with
  | PyList l => Ok l
  | PyStr s => Ok ((λ c, PyStr (String c "")) <$> String.list_ascii_of_string s)
  | PyDict d => Ok ((λ kv, PyStr kv.1) <$> map_to_list d)
  | _ => Raise TypeError
  end.

(** [item.get(key, default)]: only a dict has the method. *)
Definition get (item : pyval) (key : string) (default : pyval) : result pyval :=
  match item with
  | PyDict d => Ok (match d !! key with Some v => v | None => default end)
  | _ => Raise AttributeError
  end.

Definition Qlt_bool (x y : Q) : bool := negb (Qle_bool y x).

(** [0 <= idx < n] for a list length [n]: a chained comparison, the
    second test is evaluated only when the first one holds. *)
Definition in_range (idx : pyval) (n : nat) : result bool :=
  match idx with
  | PyInt z => Ok ((0 <=? z) && (z <? Z.of_nat n))
  | PyBool b => Ok ((0 <=? Z.b2z b) && (Z.b2z b <? Z.of_nat n))
  | PyFloat FNaN => Ok false
  | PyFloat (FInf negative) => Ok false
  | PyFloat (FFinite q) =>
      Ok (Qle_bool (inject_Z 0) q && Qlt_bool q (inject_Z (Z.of_nat n)))
  | _ => Raise TypeError
  end.

(** The position [l[idx]] addresses in a list of length [n]. *)
Definition position (idx : pyval) (n : nat) : result nat :=
  let at_int (z : Z) :=
    if (0 <=? z) && (z <? Z.of_nat n) then Ok (Z.to_nat z)
    else if (- Z.of_nat n <=? z) && (z <? 0) then Ok (Z.to_nat (Z.of_nat n + z))
    else Raise IndexError in
  match idx with
  | PyInt z => at_int z
  | PyBool b => at_int (Z.b2z b)
  | _ => Raise TypeError
  end.

(** [format(v, "")] inside an f-string; [repr] stands for [str(v)] of a
    value that is not a string. *)
Definition format (repr : pyval → string) (v : pyval) : string :=
  match v with
  | PyStr s => s
  | _ => repr v
  end.

(** *** Computations over the dicts of a clause list *)

Definition M (A : Type) : Type := list Clause → list Clause * result A.

Definition ret {A} (a : A) : M A := λ st, (st, Ok a).

Definition raise {A} (e : exn) : M A := λ st, (st, Raise e).

Definition lift {A} (r : result A) : M A := λ st, (st, r).

Definition bind {A B} (m : M A) (k : A → M B) : M B :=
  λ st, match m st with
        | (st', Ok a) => k a st'
        | (st', Raise e) => (st', Raise e)
        end.

(** [return clauses]: the list itself *)
Definition return_clauses : M (list Clause) := λ st, (st, Ok st).

(** [len(clauses)] *)
Definition len : M nat := λ st, (st, Ok (length st)).

(** [clauses[idx][key] = v] *)
Definition setitem (idx : pyval) (key : string) (v : pyval) : M unit :=
  λ st, match position idx (length st) with
        | Ok i => (alter (insert key v) i st, Ok tt)
        | Raise e => (st, Raise e)
        end.

(** [try: body except classes: handler] *)
Definition try_except {A} (body : M A) (classes : exn → bool) (handler : M A) : M A :=
  λ st, match body st with
        | (st', Raise e) => if classes e then handler st' else (st', Raise e)
        | r => r
        end.

(** [for x in l: body x], for a list [l] the body does not change *)
Fixpoint for_each {X} (l : list X) (body : X → M unit) : M unit :=
  match l with
  | [] => ret tt
  | x :: l' => bind (body x) (λ _, for_each l' body)
  end.

(** [for clause in clauses: body], where the body updates the dict it
    visits or raises; the dicts after the first raise are not visited. *)
Fixpoint for_clause (body : Clause → result Clause) (st : list Clause)
    : list Clause * result unit :=
  match st with
  | [] => ([], Ok tt)
  | c :: st' =>
      match body c with
      | Ok c' => let '(st'', r) := for_clause body st' in (c' :: st'', r)
      | Raise e => (c :: st', Raise e)
      end
  end.

(** Run [m] on [batch = clauses[i:i+n]].  The slice is a new list of the
    same dict objects, so what [m] does to them shows in [clauses]. *)
Definition on_slice {A} (i n : nat) (m : M A) : M A :=
  λ st, let '(batch, r) := m (take n (drop i st)) in
        (take i st ++ batch ++ drop (i + n) st, r).

(** [range(0, stop, step)] *)
Definition range_step (stop step : nat) : list nat :=
  (λ j, j * step)%nat <$> seq 0 ((stop + step - 1) / step)%nat.

End Py.

Notation "x <- m ;; k" := (Py.bind m (λ x, k))
  (at level 100, m at next level, right associativity).
Notation "m ;;; k" := (Py.bind m (λ _, k))
  (at level 100, right associativity).

(** The generative model handle: the answer ([response.text]) to the
    [j]-th call made with a given prompt, or the exception the call
    raises. *)
Definition annotator : Type := nat → string → result string.

(** [except (json.JSONDecodeError, KeyError, ValueError)] *)
Definition parse_failure (e : exn) : bool :=
  match e with
  | JSONDecodeError | KeyError | ValueError => true
  | _ => false
  end.

(** The Markdown fence handling both parsers start with. *)
Definition unfence (response_text : string) : string :=
  let response_text := Str.strip response_text in
  let response_text :=
    if Str.startswith "```json" response_text
    then Str.slice_from 7 response_text else response_text in
  let response_text :=
    if Str.startswith "```" response_text
    then Str.slice_from 3 response_text else response_text in
  let response_text :=
    if Str.endswith "```" response_text
    then Str.slice_to_neg 3 response_text else response_text in
  Str.strip response_text.

(** [clauses_text] of both prompt builders: one entry per clause of the
    batch, [KeyError] when a clause has no ['text']. *)
Definition clauses_text (repr : pyval → string) : Py.M string :=
  λ st,
    (st,
     foldl (λ acc ic,
              match acc, ic.2 !! "text" with
              | Ok clauses_text, Some text =>
                  Ok (clauses_text +:+ Str.nl +:+ Str.nl +:+ "Clause "
                      +:+ pretty ic.1 +:+ ":" +:+ Str.nl +:+ Py.format repr text)
              | Ok _, None => Raise KeyError
              | Raise e, _ => Raise e
              end)
       (Ok "") (Str.enumerate st)).

(** ["sep".join(l)], used below to lay out the prompt templates *)
Definition join (sep : string) (l : list string) : string :=
  match l with
  | [] => ""
  | s :: l' => foldl (λ acc t, acc +:+ sep +:+ t) s l'
  end.

Definition quoted (s : string) : string := Str.dq +:+ s +:+ Str.dq.

(** ** Model-backed classification: [GeminiClassifier] *)

Module GeminiClassifier.

Record t := { model_name : string; _model : option annotator }.

Definition batch_size : nat := 10.

Section WithCollaborators.

(** [json.loads]: the decoded value, or the exception it raises. *)
Variable json_loads : string → result pyval.
(** [str(v)] of a value that is not a string. *)
Variable repr : pyval → string.

Definition _create_classification_prompt : Py.M string :=
  clauses_text <- clauses_text repr ;;
  Py.ret (join Str.nl
    [ "You are a Legal Classification Agent. Your task is to analyze legal clauses and categorize them.";
      "";
      "Classify each of the following legal clauses into ONE of these categories:";
      "- Termination: Clauses about ending agreements or contracts";
      "- Indemnification: Clauses about liability, compensation, or holding harmless";
      "- Confidentiality: Clauses about non-disclosure or confidential information";
      "- Payment: Clauses about fees, payment terms, or compensation";
      "- Intellectual Property: Clauses about IP rights, ownership, or licensing";
      "- Liability: Clauses about limitations of liability or warranties";
      "- Dispute Resolution: Clauses about arbitration, mediation, or legal jurisdiction";
      "- Term: Clauses about contract duration or renewal";
      "- General: Any other type of clause";
      "";
      "Clauses to classify:" +:+ clauses_text;
      "";
      "Respond with a JSON array containing objects with " +:+ quoted "index"
        +:+ " (the clause number) and " +:+ quoted "category"
        +:+ " (the classification).";
      "Example format: [{" +:+ quoted "index" +:+ ": 0, " +:+ quoted "category"
        +:+ ": " +:+ quoted "Termination" +:+ "}, {" +:+ quoted "index"
        +:+ ": 1, " +:+ quoted "category" +:+ ": " +:+ quoted "Confidentiality"
        +:+ "}]";
      "";
      "Only return the JSON array, nothing else." ]).

(** Body of [for item in classifications]. *)
Definition update_label (item : pyval) : Py.M unit :=
  idx <- Py.lift (Py.get item "index" (PyInt (-1))) ;;
  category <- Py.lift (Py.get item "category" (PyStr "General")) ;;
  n <- Py.len ;;
  inside <- Py.lift (Py.in_range idx n) ;;
  if inside : bool then Py.setitem idx "label" category else Py.ret tt.

(** Body of the fallback loop:
    [if "label" not in clause: Clause["label"] = "General"]. *)
Definition default_label (clause : Clause) : result Clause :=
  match clause !! "label" with
  | None => Ok (<["label" := PyStr "General"]> clause)
  | Some _ => Ok clause
  end.

(** The [try] block. *)
Definition try_body (response_text : string) : Py.M unit :=
  let response_text := unfence response_text in
  classifications <- Py.lift (json_loads response_text) ;;
  items <- Py.lift (Py.iter classifications) ;;
  Py.for_each items update_label.

Definition _parse_and_update_clauses (response_text : string) : Py.M unit :=
  Py.try_except (try_body response_text) parse_failure
    (Py.for_clause default_label).

(** Body of [for i in range(0, len(clauses), batch_size)]; [j] counts the
    calls made to the model so far. *)
Definition classify_batch (model : annotator) (ji : nat * nat) : Py.M unit :=
  let '(j, i) := ji in
  Py.on_slice i batch_size
    (prompt <- _create_classification_prompt ;;
     response_text <- Py.lift (model j prompt) ;;
     _parse_and_update_clauses response_text).

Definition classify (self : t) : Py.M (list Clause) :=
  match _model self with
  | None => Py.raise ValueError
  | Some model =>
      n <- Py.len ;;
      Py.for_each (Str.enumerate (Py.range_step n batch_size)) (classify_batch model) ;;;
      Py.return_clauses
  end.

End WithCollaborators.

End GeminiClassifier.

(** ** Model-backed obligation extraction: [GeminiExtractor] *)

Module GeminiExtractor.

Record t := { model_name : string; _model : option annotator }.

Definition batch_size : nat := 10.

Section WithCollaborators.

Variable json_loads : string → result pyval.
Variable repr : pyval → string.

Definition _create_extraction_prompt : Py.M string :=
  clauses_text <- clauses_text repr ;;
  Py.ret (join Str.nl
    [ "You are a Legal Obligation Extraction Agent. Your task is to identify binding obligations, requirements, and duties in legal clauses.";
      "";
      "An obligation exists when:";
      "- The clause contains mandatory language (shall, must, will, required to, obligated to, etc.)";
      "- The clause imposes a duty or requirement on a party";
      "- The clause creates a binding commitment or responsibility";
      "- The clause specifies actions that must be taken or avoided";
      "";
      "For each clause below, determine:";
      "1. Whether it contains a legal obligation (true/false)";
      "2. If true, extract the specific obligation(s) and the party responsible";
      "";
      "Clauses to analyze:" +:+ clauses_text;
      "";
      "Respond with a JSON array containing objects with:";
      "- " +:+ quoted "index" +:+ ": the clause number";
      "- " +:+ quoted "has_obligation" +:+ ": true or false";
      "- " +:+ quoted "obligation_details"
        +:+ ": (if has_obligation is true) a brief description of the obligation and who must perform it";
      "";
      "Example format:";
      "[";
      "  {" +:+ quoted "index" +:+ ": 0, " +:+ quoted "has_obligation"
        +:+ ": true, " +:+ quoted "obligation_details" +:+ ": "
        +:+ quoted "The Buyer shall pay the purchase price within 30 days" +:+ "},";
      "  {" +:+ quoted "index" +:+ ": 1, " +:+ quoted "has_obligation"
        +:+ ": false, " +:+ quoted "obligation_details" +:+ ": "
        +:+ quoted "" +:+ "}";
      "]";
      "";
      "Only return the JSON array, nothing else." ]).

(** Body of [for item in extractions]. *)
Definition update_obligation (item : pyval) : Py.M unit :=
  idx <- Py.lift (Py.get item "index" (PyInt (-1))) ;;
  has_obligation <- Py.lift (Py.get item "has_obligation" (PyBool false)) ;;
  obligation_details <- Py.lift (Py.get item "obligation_details" (PyStr "")) ;;
  n <- Py.len ;;
  inside <- Py.lift (Py.in_range idx n) ;;
  if inside : bool then
    Py.setitem idx "has_obligation" has_obligation ;;;
    if truthy has_obligation && truthy obligation_details
    then Py.setitem idx "obligation_details" obligation_details
    else Py.ret tt
  else Py.ret tt.

(** Body of the fallback loop:
    [if "has_obligation" not in clause: Clause["has_obligation"] = False]. *)
Definition default_obligation (clause : Clause) : result Clause :=
  match clause !! "has_obligation" with
  | None => Ok (<["has_obligation" := PyBool false]> clause)
  | Some _ => Ok clause
  end.

(** The [try] block. *)
Definition try_body (response_text : string) : Py.M unit :=
  let response_text := unfence response_text in
  extractions <- Py.lift (json_loads response_text) ;;
  items <- Py.lift (Py.iter extractions) ;;
  Py.for_each items update_obligation.

Definition _parse_and_update_clauses (response_text : string) : Py.M unit :=
  Py.try_except (try_body response_text) parse_failure
    (Py.for_clause default_obligation).

Definition extract_batch (model : annotator) (ji : nat * nat) : Py.M unit :=
  let '(j, i) := ji in
  Py.on_slice i batch_size
    (prompt <- _create_extraction_prompt ;;
     response_text <- Py.lift (model j prompt) ;;
     _parse_and_update_clauses response_text).

Definition extract (self : t) : Py.M (list Clause) :=
  match _model self with
  | None => Py.raise ValueError
  | Some model =>
      n <- Py.len ;;
      Py.for_each (Str.enumerate (Py.range_step n batch_size)) (extract_batch model) ;;;
      Py.return_clauses
  end.

End WithCollaborators.

End GeminiExtractor.

(** ** Rule-based stages *)

Module LegalClassifier.

(** Body of [for clause in clauses]. *)
Definition classify_clause (clause : Clause) : result Clause :=
  match clause !! "text" with
  | None => Raise KeyError
  | Some (PyStr s) =>
      let text := Str.lower s in
      if Str.contains "termination" text
      then Ok (<["label" := PyStr "Termination"]> clause)
      else if Str.contains "indemnify" text || Str.contains "indemnification" text
      then Ok (<["label" := PyStr "Indemnification"]> clause)
      else if Str.contains "confidentiality" text
      then Ok (<["label" := PyStr "Confidentiality"]> clause)
      else Ok (<["label" := PyStr "General"]> clause)
  | Some _ => Raise AttributeError
  end.

Definition classify : Py.M (list Clause) :=
  Py.for_clause classify_clause ;;; Py.return_clauses.

End LegalClassifier.

Module ObligationExtractor.

(** Body of [for clause in clauses]. *)
Definition extract_clause (clause : Clause) : result Clause :=
  match clause !! "text" with
  | None => Raise KeyError
  | Some (PyStr s) =>
      let text := Str.lower s in
      if Str.contains "shall" text || Str.contains "must" text
      then Ok (<["has_obligation" := PyBool true]> clause)
      else Ok (<["has_obligation" := PyBool false]> clause)
  | Some _ => Raise AttributeError
  end.

Definition extract : Py.M (list Clause) :=
  Py.for_clause extract_clause ;;; Py.return_clauses.

End ObligationExtractor.

(** ** The agent orchestrator: [LegalAgentOrchestrator] *)

Module LegalAgentOrchestrator.

Record t := { gemini_model : option annotator }.

Definition init : t := {| gemini_model := None |}.

Definition batch_size : nat := 10.

Section WithCollaborators.

Variable json_loads : string → result pyval.
Variable repr : pyval → string.
(** [genai.configure], the choice of a model name and
    [genai.GenerativeModel(...)]: the handle obtained with a key, or the
    exception raised on the way. *)
Variable connect : string → result annotator.
(** The aggregation of [generate_summary]: it reads the clauses and
    formats the summary prompt, or raises. *)
Variable summary_prompt : list Clause → result string.

Definition initialize (self : t) (api_key : string) : result t :=
  if truthy (PyStr api_key) then
    match connect api_key with
    | Ok model => Ok {| gemini_model := Some model |}
    | Raise e => Raise e
    end
  else Raise ValueError.

Definition classification_prompt : Py.M string :=
  clauses_text <- clauses_text repr ;;
  Py.ret (join Str.nl
    [ "Classify each of the following legal clauses into the appropriate category.";
      "";
      "Clauses to classify:" +:+ clauses_text;
      "";
      "Respond with a JSON array containing objects with " +:+ quoted "index"
        +:+ " (the clause number) and " +:+ quoted "category"
        +:+ " (the classification).";
      "Example format: [{" +:+ quoted "index" +:+ ": 0, " +:+ quoted "category"
        +:+ ": " +:+ quoted "Termination" +:+ "}, {" +:+ quoted "index"
        +:+ ": 1, " +:+ quoted "category" +:+ ": " +:+ quoted "Confidentiality"
        +:+ "}]";
      "";
      "Only return the JSON array, nothing else." ]).

(** Body of the batch loop of [classify_clauses].  Its [try] statement is,
    with [batch] for [clauses], the one of
    [GeminiClassifier._parse_and_update_clauses].  [calls] is the number of
    calls made with the handle before the stage. *)
Definition classify_batch (model : annotator) (calls : nat) (ji : nat * nat)
    : Py.M unit :=
  let '(j, i) := ji in
  Py.on_slice i batch_size
    (prompt <- classification_prompt ;;
     response_text <- Py.lift (model (calls + j)%nat prompt) ;;
     GeminiClassifier._parse_and_update_clauses json_loads response_text).

Definition classify_clauses (self : t) (calls : nat) : Py.M (list Clause) :=
  match gemini_model self with
  | None => Py.raise ValueError
  | Some model =>
      n <- Py.len ;;
      Py.for_each (Str.enumerate (Py.range_step n batch_size))
        (classify_batch model calls) ;;;
      Py.return_clauses
  end.

Definition extraction_prompt : Py.M string :=
  clauses_text <- clauses_text repr ;;
  Py.ret (join Str.nl
    [ "For each clause below, determine if it contains a legal obligation and extract the details.";
      "";
      "Clauses to analyze:" +:+ clauses_text;
      "";
      "Respond with a JSON array containing objects with:";
      "- " +:+ quoted "index" +:+ ": the clause number";
      "- " +:+ quoted "has_obligation" +:+ ": true or false";
      "- " +:+ quoted "obligation_details"
        +:+ ": (if has_obligation is true) a brief description of the obligation";
      "";
      "Example format:";
      "[";
      "  {" +:+ quoted "index" +:+ ": 0, " +:+ quoted "has_obligation"
        +:+ ": true, " +:+ quoted "obligation_details" +:+ ": "
        +:+ quoted "The Buyer shall pay within 30 days" +:+ "},";
      "  {" +:+ quoted "index" +:+ ": 1, " +:+ quoted "has_obligation"
        +:+ ": false, " +:+ quoted "obligation_details" +:+ ": "
        +:+ quoted "" +:+ "}";
      "]";
      "";
      "Only return the JSON array, nothing else." ]).

(** Body of the batch loop of [extract_obligations]; its [try] statement
    is the one of [GeminiExtractor._parse_and_update_clauses]. *)
Definition extract_batch (model : annotator) (calls : nat) (ji : nat * nat)
    : Py.M unit :=
  let '(j, i) := ji in
  Py.on_slice i batch_size
    (prompt <- extraction_prompt ;;
     response_text <- Py.lift (model (calls + j)%nat prompt) ;;
     GeminiExtractor._parse_and_update_clauses json_loads response_text).

Definition extract_obligations (self : t) (calls : nat) : Py.M (list Clause) :=
  match gemini_model self with
  | None => Py.raise ValueError
  | Some model =>
      n <- Py.len ;;
      Py.for_each (Str.enumerate (Py.range_step n batch_size))
        (extract_batch model calls) ;;;
      Py.return_clauses
  end.

Definition generate_summary (self : t) (calls : nat) : Py.M string :=
  match gemini_model self with
  | None => Py.raise ValueError
  | Some model =>
      prompt <- (λ st, (st, summary_prompt st)) ;;
      Py.lift (model calls prompt)
  end.

End WithCollaborators.

End LegalAgentOrchestrator.

(** ** Retrieval *)

(** The flat L2 index of the FAISS library, after its documented
    contract: [search] gives the labels of the [k] stored vectors nearest
    to the query, nearest first, and fills the places for which there is
    no vector with [-1].  Distances are exact rationals here; vectors at
    the same distance keep their order of insertion. *)
Module Faiss.

Section Index.

Context {vec : Type}.
Variable l2 : vec → vec → Q.

Record IndexFlatL2 := { xb : list vec }.

Fixpoint insert_by (x : Q * nat) (l : list (Q * nat)) : list (Q * nat) :=
  match l with
  | [] => [x]
  | y :: l' => if Qle_bool y.1 x.1 then y :: insert_by x l' else x :: l
  end.

Definition ranked (self : IndexFlatL2) (q : vec) : list nat :=
  snd <$> foldl (λ acc x, insert_by x acc) []
            ((λ iv, (l2 q iv.2, iv.1)) <$> Str.enumerate (xb self)).

Definition search (self : IndexFlatL2) (q : vec) (k : nat) : list Z :=
  let nearest := take k (ranked self q) in
  (Z.of_nat <$> nearest) ++ replicate (k - length nearest) (-1).

End Index.

End Faiss.

Module FaissRetriever.

Section WithCollaborators.

Context {vec : Type}.
(** [SentenceTransformer.encode] on one input: its embedding, or the
    exception raised for an input it does not take. *)
Variable encode : pyval → result vec.
Variable l2 : vec → vec → Q.

Record t := { _index : option (@Faiss.IndexFlatL2 vec); clauses : list Clause }.

(** [__init__] *)
Definition init : t := {| _index := None; clauses := [] |}.

(** [[f(x) for x in l]] for an [f] that may raise *)
Fixpoint comprehension {A B} (f : A → result B) (l : list A) : result (list B) :=
  match l with
  | [] => Ok []
  | x :: l' =>
      match f x with
      | Raise e => Raise e
      | Ok y =>
          match comprehension f l' with
          | Raise e => Raise e
          | Ok ys => Ok (y :: ys)
          end
      end
  end.

(** [c['text']] *)
Definition text_of (c : Clause) : result pyval :=
  match c !! "text" with
  | Some v => Ok v
  | None => Raise KeyError
  end.

(** [index]: the attribute [clauses] is assigned first and stays so when
    a later statement raises.  [embeddings.shape[1]] does not exist for
    the empty array. *)
Definition index (self : t) (clauses : list Clause) : t * result unit :=
  let self := {| _index := _index self; clauses := clauses |} in
  match comprehension text_of clauses with
  | Raise e => (self, Raise e)
  | Ok texts =>
      match comprehension encode texts with
      | Raise e => (self, Raise e)
      | Ok [] => (self, Raise IndexError)
      | Ok embeddings =>
          ({| _index := Some {| Faiss.xb := embeddings |};
              clauses := clauses |}, Ok tt)
      end
  end.

(** [l[i]] for an integer [i] *)
Definition getitem (l : list Clause) (i : Z) : result Clause :=
  match Py.position (PyInt i) (length l) with
  | Ok p => match l !! p with Some c => Ok c | None => Raise IndexError end
  | Raise e => Raise e
  end.

(** [retrieve]; FAISS asserts [k > 0]. *)
Definition retrieve (self : t) (query : string) (k : Z) : result (list Clause) :=
  match _index self with
  | None => Ok []
  | Some ix =>
      match encode (PyStr query) with
      | Raise e => Raise e
      | Ok query_embedding =>
          if k <=? 0 then Raise AssertionError
          else
            let indices := Faiss.search l2 ix query_embedding (Z.to_nat k) in
            comprehension (getitem (clauses self)) indices
      end
  end.

End WithCollaborators.

End FaissRetriever.

(** ** The application pipeline: [process_document] of [streamlit_app] *)

Module StreamlitApp.

Section WithCollaborators.

Variable json_loads : string → result pyval.
Variable repr : pyval → string.
Variable connect : string → result annotator.
Variable summary_prompt : list Clause → result string.
Context {vec : Type}.
Variable encode : pyval → result vec.
Variable l2 : vec → vec → Q.

(** Number of batches of a stage over [n] clauses: the calls it makes. *)
Definition batches (n : nat) : nat := length (Py.range_step n 10).

(** The [if use_ai_agents: ... else: ...] inside the [try]; its value is
    [summary]. *)
Definition analysis (api_key : string) : Py.M (option string) :=
  if truthy (PyStr api_key) then
    orchestrator <- Py.lift
      (LegalAgentOrchestrator.initialize connect LegalAgentOrchestrator.init api_key) ;;
    n <- Py.len ;;
    LegalAgentOrchestrator.classify_clauses json_loads repr orchestrator 0 ;;;
    LegalAgentOrchestrator.extract_obligations json_loads repr orchestrator
      (batches n) ;;;
    summary <- LegalAgentOrchestrator.generate_summary summary_prompt orchestrator
      (batches n + batches n) ;;
    Py.ret (Some summary)
  else
    LegalClassifier.classify ;;;
    ObligationExtractor.extract ;;;
    Py.ret None.

(** The [except Exception] handler; [summary] keeps its initial [None]. *)
Definition fallback : Py.M (option string) :=
  LegalClassifier.classify ;;;
  ObligationExtractor.extract ;;;
  Py.ret None.

(** The document is given by the text of its pages.  The three clause
    variables of the function all name the list made by [ingest]. *)
Definition process_document (document : list string) (api_key : string)
    : result (list Clause * list Clause * option string) :=
  let clauses := PDFIngestor.ingest document in
  match Py.try_except (analysis api_key) (λ _, true) fallback clauses with
  | (_, Raise e) => Raise e
  | (extracted_clauses, Ok summary) =>
      match FaissRetriever.index encode FaissRetriever.init extracted_clauses with
      | (_, Raise e) => Raise e
      | (retriever, Ok _) =>
          match FaissRetriever.retrieve encode l2 retriever
                  "What are the termination conditions?" 5 with
          | Raise e => Raise e
          | Ok retrieved_clauses => Ok (extracted_clauses, retrieved_clauses, summary)
          end
      end
  end.

End WithCollaborators.

End StreamlitApp.

(** ** Segmentation as the specification words it *)

Module Segmentation.

(** A candidate segment: page index, ordinal within the page, raw text. *)
Definition segment : Type := nat * nat * string.




(** The clause made of a segment. *)
Definition clause_of (seg : segment) : Clause :=
  PDFIngestor.new_clause seg.1.1 seg.1.2 seg.2.

(** Source order: by page, then by ordinal within the page. *)
Definition before (a b : segment) : Prop :=
  (a.1.1 < b.1.1 ∨ a.1.1 = b.1.1 ∧ a.1.2 < b.1.2)%nat.


End Segmentation.



(** ** Relating the dicts before and after *)

(** A computation [preserves R] when every dict it leaves behind is
    [R]-related to the dict it found at the same position, whether the
    computation returns or raises. *)
Definition preserves (R : relation Clause) {A} (m : Py.M A) : Prop :=
  ∀ st, Forall2 R st (m st).1.

(** ** Frame of the annotation stages *)

Definition annotation_fields : list string :=
  ["label"; "has_obligation"; "obligation_details"].

(** [same_but keys c c']: the dict [c'] is [c] except at [keys]. *)
Definition same_but (keys : list string) : relation Clause :=
  λ c c', ∀ k, k ∉ keys → c' !! k = c !! k.

(** What a stage started on [cs] leaves and returns, whether it returns
    or raises: the dicts are the same ones in the same places, changed at
    most at [keys]; in particular there are as many as before and each has
    its [id], [text] and [page]; the value returned, if any, is that
    list. *)
Definition stage_frame (keys : list string) (stage : Py.M (list Clause))
    (cs : list Clause) : Prop :=
  keys ⊆ annotation_fields
  ∧ Forall2 (same_but keys) cs (stage cs).1
  ∧ length (stage cs).1 = length cs
  ∧ (∀ i c, cs !! i = Some c →
       ∃ c', (stage cs).1 !! i = Some c'
             ∧ c' !! "id" = c !! "id" ∧ c' !! "text" = c !! "text"
             ∧ c' !! "page" = c !! "page")
  ∧ ∀ returned, (stage cs).2 = Ok returned → returned = (stage cs).1.

(** ** Sample collaborators for the examples *)

Module Sample.

Definition object (fields : list (string * pyval)) : pyval :=
  PyDict (list_to_map fields).

(** Response texts. *)
Definition empty_array : string := "[]".
Definition not_json : string := "not json".
Definition array_of_strings : string := "[" +:+ quoted "Termination" +:+ "]".
Definition payment : string :=
  "[{" +:+ quoted "index" +:+ ": 0, " +:+ quoted "category" +:+ ": "
  +:+ quoted "Payment" +:+ "}]".
Definition fenced_payment : string :=
  "```json" +:+ Str.nl +:+ payment +:+ Str.nl +:+ "```".
Definition unknown_category : string :=
  "[{" +:+ quoted "index" +:+ ": 0, " +:+ quoted "category" +:+ ": "
  +:+ quoted "Miscellaneous" +:+ "}]".
Definition obligation : string :=
  "[{" +:+ quoted "index" +:+ ": 0, " +:+ quoted "has_obligation" +:+ ": true, "
  +:+ quoted "obligation_details" +:+ ": " +:+ quoted "The Buyer shall pay" +:+ "}]".
Definition obligation_twice : string :=
  "[{" +:+ quoted "index" +:+ ": 0, " +:+ quoted "has_obligation" +:+ ": true, "
  +:+ quoted "obligation_details" +:+ ": " +:+ quoted "The Buyer shall pay" +:+ "}, {"
  +:+ quoted "index" +:+ ": 0, " +:+ quoted "has_obligation" +:+ ": false}]".

Definition obligation_number : string :=
  "[{" +:+ quoted "index" +:+ ": 0, " +:+ quoted "has_obligation" +:+ ": true, "
  +:+ quoted "obligation_details" +:+ ": 30}]".

(** [json.loads] on the texts above; the examples look at no other text,
    for which the answer here is [JSONDecodeError]. *)
Definition loads (s : string) : result pyval :=
  if String.eqb s empty_array then Ok (PyList [])
  else if String.eqb s array_of_strings then Ok (PyList [PyStr "Termination"])
  else if String.eqb s payment then
    Ok (PyList [object [("index", PyInt 0); ("category", PyStr "Payment")]])
  else if String.eqb s unknown_category then
    Ok (PyList [object [("index", PyInt 0); ("category", PyStr "Miscellaneous")]])
  else if String.eqb s obligation then
    Ok (PyList [object [("index", PyInt 0); ("has_obligation", PyBool true);
                        ("obligation_details", PyStr "The Buyer shall pay")]])
  else if String.eqb s obligation_twice then
    Ok (PyList [object [("index", PyInt 0); ("has_obligation", PyBool true);
                        ("obligation_details", PyStr "The Buyer shall pay")];
                object [("index", PyInt 0); ("has_obligation", PyBool false)]])
  else if String.eqb s obligation_number then
    Ok (PyList [object [("index", PyInt 0); ("has_obligation", PyBool true);
                        ("obligation_details", PyInt 30)]])
  else Raise JSONDecodeError.

(** [str(v)]; the sample clauses have string texts, so it is not called. *)
Definition repr (v : pyval) : string := "".

(** A clause as [ingest] makes it. *)
Definition clause (id text : string) (page : Z) : Clause :=
  <["id" := PyStr id]> (<["text" := PyStr text]> (<["page" := PyInt page]> ∅)).

(** A model that answers every call with the same text. *)
Definition always (response_text : string) : annotator :=
  λ _ _, Ok response_text.

(** One-dimensional embeddings: the length of the text. *)
Definition encode (v : pyval) : result Z :=
  match v with
  | PyStr s => Ok (Z.of_nat (String.length s))
  | _ => Raise TypeError
  end.

Definition l2 (x y : Z) : Q := inject_Z ((x - y) * (x - y)).

End Sample.

(** ** The scenario of the specification and further samples *)

Module Scenario.

Definition page_1 : string :=
  "This Agreement shall terminate upon 30 days notice." +:+ Str.nl +:+ Str.nl
  +:+ "Confidential information must not be disclosed.".

Definition page_2 : string := "General terms apply.".

Definition document : list string := [page_1; page_2].

(** Steps 1 to 3 of [main]: ingest, rule-based classification, rule-based
    extraction; the clauses they leave. *)
Definition analysed : list Clause :=
  ((LegalClassifier.classify ;;; ObligationExtractor.extract)
     (PDFIngestor.ingest document)).1.

(** The values of one field, clause by clause. *)
Definition field (key : string) (clauses : list Clause) : list (option pyval) :=
  (λ c : Clause, c !! key) <$> clauses.

(** Eleven clauses, so that a stage has two batches. *)
Definition eleven : list Clause :=
  (λ i : nat, Sample.clause ("page_1_clause_" +:+ pretty (i + 1)%nat) "Fees are due." 1)
    <$> seq 0 11.

(** A model whose first call answers and whose later calls fail. *)
Definition flaky : annotator :=
  λ j _, match j with
         | O => Ok Sample.payment
         | S _ => Raise (ExternalError "DeadlineExceeded")
         end.

Definition connect (api_key : string) : result annotator := Ok flaky.

Definition summary_prompt (clauses : list Clause) : result string := Ok "".

End Scenario.

(** ** Exceptions that leave the parse-and-update step *)

(** Both parse-and-update steps raise [e] to their caller on this
    response and leave the dicts as they were. *)
Definition escapes (json_loads : string → result pyval) (response_text : string)
    (clauses : list Clause) (e : exn) : Prop :=
  GeminiClassifier._parse_and_update_clauses json_loads response_text clauses
  = (clauses, Raise e)
  ∧ GeminiExtractor._parse_and_update_clauses json_loads response_text clauses
    = (clauses, Raise e).

(** ** Categories and responses *)

(** The nine categories of the classification prompt. *)
Definition categories : list string :=
  [ "Termination"; "Indemnification"; "Confidentiality"; "Payment";
    "Intellectual Property"; "Liability"; "Dispute Resolution"; "Term";
    "General" ].

(** The clause carries a label of the category set. *)
Definition categorised (c : Clause) : Prop :=
  ∃ category, c !! "label" = Some (PyStr category) ∧ category ∈ categories.

(** The clause carries no label, or one of the category set. *)
Definition label_absent_or_categorised (c : Clause) : Prop :=
  c !! "label" = None ∨ categorised c.

(** The position of the clause a response item is written to, in a batch
    of [n] clauses: the item is an object whose ["index"] passes the range
    test and addresses a list position. *)
Definition item_target (n : nat) (item : pyval) : option nat :=
  match Py.get item "index" (PyInt (-1)) with
  | Ok idx =>
      match Py.in_range idx n, Py.position idx n with
      | Ok true, Ok p => Some p
      | _, _ => None
      end
  | Raise _ => None
  end.

(** The category an item carries, if any, is one of the set. *)
Definition item_category_known (item : pyval) : Prop :=
  ∀ category, Py.get item "category" (PyStr "General") = Ok category →
    ∃ name, category = PyStr name ∧ name ∈ categories.

(** A decoded response that labels a whole batch of [n] clauses from the
    category set: every item carries a category of the set, and every
    position of the batch is the target of an item. *)
Definition covers_batch (n : nat) (v : pyval) : Prop :=
  ∀ items, Py.iter v = Ok items →
    Forall item_category_known items
    ∧ ∀ p, (p < n)%nat → ∃ item, item ∈ items ∧ item_target n item = Some p.

(** Once a clause has a label of the set, it keeps one. *)
Definition stays_categorised : relation Clause :=
  λ c c', categorised c → categorised c'.

(** ** Obligation details *)


(** The details a clause carries are a true value next to a true
    obligation flag. *)
Definition details_with_obligation (c : Clause) : Prop :=
  ∀ details, c !! "obligation_details" = Some details →
    truthy details = true
    ∧ ∃ flag, c !! "has_obligation" = Some flag ∧ truthy flag = true.




Definition keeps_details_with_obligation : relation Clause :=
  λ c c', details_with_obligation c → details_with_obligation c'.

(** ** The keyword rules *)

(** The label [LegalClassifier] gives a text. *)
Definition keyword_label (s : string) : string :=
  let text := Str.lower s in
  if Str.contains "termination" text then "Termination"
  else if Str.contains "indemnify" text || Str.contains "indemnification" text
  then "Indemnification"
  else if Str.contains "confidentiality" text then "Confidentiality"
  else "General".

(** The flag [ObligationExtractor] gives a text. *)
Definition keyword_obligation (s : string) : bool :=
  let text := Str.lower s in
  Str.contains "shall" text || Str.contains "must" text.

Definition has_text (c : Clause) : Prop :=
  ∃ s, c !! "text" = Some (PyStr s).

(** What the rule-based stages, run one after the other, make of a
    clause: label and flag are those of the keyword rules for its text,
    every other field is as it was. *)
Definition rule_based (c c' : Clause) : Prop :=
  ∃ s, c !! "text" = Some (PyStr s)
       ∧ c' !! "label" = Some (PyStr (keyword_label s))
       ∧ c' !! "has_obligation" = Some (PyBool (keyword_obligation s))
       ∧ same_but ["label"; "has_obligation"] c c'.

(** * Properties *)

(** ** Strings *)

Section StringFacts.






End StringFacts.

(** ** Decimal numerals and clause ids *)

Section ClauseIds.






End ClauseIds.

(** ** Segmentation *)

Section SegmentationFacts.

Import Segmentation.











Lemma before_irrefl seg : ¬ before seg seg.
Proof. unfold before. lia. Qed.



Lemma clause_of_page seg :
  clause_of seg !! "page" = Some (PyInt (Z.of_nat seg.1.1 + 1)).
Proof. unfold clause_of, PDFIngestor.new_clause. by simplify_map_eq. Qed.



End SegmentationFacts.

(** ** In-place updates seen clause by clause *)

Section Preservation.

Context (R : relation Clause) `{!PreOrder R}.

Lemma related_refl (st : list Clause) : Forall2 R st st.
Proof. by apply Forall_Forall2_diag, Forall_true. Qed.

Lemma related_trans (st1 st2 st3 : list Clause) :
  Forall2 R st1 st2 → Forall2 R st2 st3 → Forall2 R st1 st3.
Proof. apply Forall2_trans. intros ???. by etrans. Qed.

Lemma preserves_ret {A} (a : A) : preserves R (Py.ret a).
Proof. intros st. apply related_refl. Qed.

Lemma preserves_raise {A} e : preserves R (@Py.raise A e).
Proof. intros st. apply related_refl. Qed.

Lemma preserves_lift {A} (r : result A) : preserves R (Py.lift r).
Proof. intros st. apply related_refl. Qed.

Lemma preserves_len : preserves R Py.len.
Proof. intros st. apply related_refl. Qed.

Lemma preserves_return_clauses : preserves R Py.return_clauses.
Proof. intros st. apply related_refl. Qed.

Lemma preserves_clauses_text repr : preserves R (clauses_text repr).
Proof. intros st. apply related_refl. Qed.

Lemma preserves_bind {A B} (m : Py.M A) (k : A → Py.M B) :
  preserves R m → (∀ a, preserves R (k a)) → preserves R (Py.bind m k).
Proof.
  intros Hm Hk st. unfold Py.bind. specialize (Hm st).
  destruct (m st) as [st' [a|e]]; simpl in *; [|done].
  eapply related_trans; [done|apply Hk].
Qed.

Lemma preserves_try_except {A} (body handler : Py.M A) classes :
  preserves R body → preserves R handler →
  preserves R (Py.try_except body classes handler).
Proof.
  intros Hb Hh st. unfold Py.try_except. specialize (Hb st).
  destruct (body st) as [st' [a|e]]; simpl in *; [done|].
  destruct (classes e); [|done]. eapply related_trans; [done|apply Hh].
Qed.

Lemma preserves_for_each {X} (l : list X) (body : X → Py.M unit) :
  (∀ x, preserves R (body x)) → preserves R (Py.for_each l body).
Proof.
  intros Hbody. induction l as [|x l IH]; simpl.
  - apply preserves_ret.
  - apply preserves_bind; [apply Hbody|]. intros _. apply IH.
Qed.

Lemma preserves_for_clause body :
  (∀ c c', body c = Ok c' → R c c') → preserves R (Py.for_clause body).
Proof.
  intros Hbody st. induction st as [|c st IH]; simpl; [constructor|].
  destruct (body c) as [c'|e] eqn:Hc; simpl.
  - destruct (Py.for_clause body st) as [st' r]. simpl in *.
    constructor; [by apply Hbody|done].
  - apply related_refl.
Qed.

Lemma preserves_setitem idx key v :
  (∀ c, R c (<[key:=v]> c)) → preserves R (Py.setitem idx key v).
Proof.
  intros Hins st. unfold Py.setitem.
  destruct (Py.position idx (length st)) as [i|e]; simpl; [|apply related_refl].
  apply Forall2_lookup. intros j. rewrite list_lookup_alter.
  case_decide; simplify_eq/=.
  - destruct (st !! j); simpl; constructor. apply Hins.
  - destruct (st !! j); constructor. done.
Qed.

(** What is done to the dicts of a slice is done to the list. *)
Lemma preserves_on_slice {A} i n (m : Py.M A) :
  preserves R m → preserves R (Py.on_slice i n m).
Proof.
  intros Hm st. unfold Py.on_slice. specialize (Hm (take n (drop i st))).
  destruct (m (take n (drop i st))) as [batch r]. simpl in *.
  rewrite <-(take_drop i st) at 1. apply Forall2_app; [apply related_refl|].
  rewrite <-(take_drop n (drop i st)) at 1. apply Forall2_app; [done|].
  rewrite drop_drop. apply related_refl.
Qed.

End Preservation.

(** Structural part of a preservation proof. *)
Ltac preserves_step :=
  match goal with
  | |- PreOrder _ => apply _
  | |- ∀ _, _ => intros ?
  | |- preserves _ (Py.ret _) => apply preserves_ret
  | |- preserves _ (Py.raise _) => apply preserves_raise
  | |- preserves _ (Py.lift _) => apply preserves_lift
  | |- preserves _ Py.len => apply preserves_len
  | |- preserves _ Py.return_clauses => apply preserves_return_clauses
  | |- preserves _ (clauses_text _) => apply preserves_clauses_text
  | |- preserves _ (Py.bind _ _) => apply preserves_bind
  | |- preserves _ (Py.try_except _ _ _) => apply preserves_try_except
  | |- preserves _ (Py.for_each _ _) => apply preserves_for_each
  | |- preserves _ (Py.on_slice _ _ _) => apply preserves_on_slice
  | |- preserves _ (if _ then _ else _) => case_match
  | |- preserves _ (match _ with Some _ => _ | None => _ end) => case_match
  | |- preserves _ (let '(_, _) := ?x in _) => destruct x
  end.

(** ** C9: the stages change annotation fields only *)

Section Frame.

Variable json_loads : string → result pyval.
Variable repr : pyval → string.

Global Instance same_but_preorder keys : PreOrder (same_but keys).
Proof.
  split.
  - by intros c k _.
  - intros c1 c2 c3 H12 H23 k Hk. by rewrite H23, H12.
Qed.

Lemma same_but_insert keys key v c : key ∈ keys → same_but keys c (<[key:=v]> c).
Proof. intros Hin k Hk. apply lookup_insert_ne. by intros ->. Qed.

Lemma same_but_mono keys keys' c c' :
  keys ⊆ keys' → same_but keys c c' → same_but keys' c c'.
Proof. intros Hsub H k Hk. apply H. intros Hin. by apply Hk, Hsub. Qed.

Lemma preserves_update_label keys item :
  "label" ∈ keys → preserves (same_but keys) (GeminiClassifier.update_label item).
Proof.
  intros Hin. unfold GeminiClassifier.update_label. repeat preserves_step.
  apply preserves_setitem; [apply _|]. intros c. by apply same_but_insert.
Qed.

Lemma preserves_classifier_parse keys response_text :
  "label" ∈ keys →
  preserves (same_but keys)
    (GeminiClassifier._parse_and_update_clauses json_loads response_text).
Proof.
  intros Hin. unfold GeminiClassifier._parse_and_update_clauses,
    GeminiClassifier.try_body.
  repeat preserves_step.
  - by apply preserves_update_label.
  - apply preserves_for_clause; [apply _|]. intros c c'. unfold GeminiClassifier.default_label.
    case_match; intros; simplify_eq; [done|by apply same_but_insert].
Qed.

Lemma preserves_update_obligation keys item :
  "has_obligation" ∈ keys → "obligation_details" ∈ keys →
  preserves (same_but keys) (GeminiExtractor.update_obligation item).
Proof.
  intros Hin1 Hin2. unfold GeminiExtractor.update_obligation.
  repeat preserves_step;
    (apply preserves_setitem; [apply _|]; intros c; by apply same_but_insert).
Qed.

Lemma preserves_extractor_parse keys response_text :
  "has_obligation" ∈ keys → "obligation_details" ∈ keys →
  preserves (same_but keys)
    (GeminiExtractor._parse_and_update_clauses json_loads response_text).
Proof.
  intros Hin1 Hin2. unfold GeminiExtractor._parse_and_update_clauses,
    GeminiExtractor.try_body.
  repeat preserves_step.
  - by apply preserves_update_obligation.
  - apply preserves_for_clause; [apply _|]. intros c c'. unfold GeminiExtractor.default_obligation.
    case_match; intros; simplify_eq; [done|by apply same_but_insert].
Qed.

Lemma preserves_classify keys self :
  "label" ∈ keys →
  preserves (same_but keys) (GeminiClassifier.classify json_loads repr self).
Proof.
  intros Hin. unfold GeminiClassifier.classify, GeminiClassifier.classify_batch,
    GeminiClassifier._create_classification_prompt.
  repeat preserves_step. by apply preserves_classifier_parse.
Qed.

Lemma preserves_extract keys self :
  "has_obligation" ∈ keys → "obligation_details" ∈ keys →
  preserves (same_but keys) (GeminiExtractor.extract json_loads repr self).
Proof.
  intros Hin1 Hin2. unfold GeminiExtractor.extract, GeminiExtractor.extract_batch,
    GeminiExtractor._create_extraction_prompt.
  repeat preserves_step. by apply preserves_extractor_parse.
Qed.

Lemma preserves_classify_clauses keys self calls :
  "label" ∈ keys →
  preserves (same_but keys)
    (LegalAgentOrchestrator.classify_clauses json_loads repr self calls).
Proof.
  intros Hin. unfold LegalAgentOrchestrator.classify_clauses,
    LegalAgentOrchestrator.classify_batch,
    LegalAgentOrchestrator.classification_prompt.
  repeat preserves_step. by apply preserves_classifier_parse.
Qed.

Lemma preserves_extract_obligations keys self calls :
  "has_obligation" ∈ keys → "obligation_details" ∈ keys →
  preserves (same_but keys)
    (LegalAgentOrchestrator.extract_obligations json_loads repr self calls).
Proof.
  intros Hin1 Hin2. unfold LegalAgentOrchestrator.extract_obligations,
    LegalAgentOrchestrator.extract_batch, LegalAgentOrchestrator.extraction_prompt.
  repeat preserves_step. by apply preserves_extractor_parse.
Qed.

Lemma classify_clause_same_but keys c c' :
  "label" ∈ keys → LegalClassifier.classify_clause c = Ok c' → same_but keys c c'.
Proof.
  intros Hin. unfold LegalClassifier.classify_clause.
  repeat case_match; intros; simplify_eq; by apply same_but_insert.
Qed.

Lemma extract_clause_same_but keys c c' :
  "has_obligation" ∈ keys → ObligationExtractor.extract_clause c = Ok c' →
  same_but keys c c'.
Proof.
  intros Hin. unfold ObligationExtractor.extract_clause.
  repeat case_match; intros; simplify_eq; by apply same_but_insert.
Qed.

Lemma preserves_rule_classify keys :
  "label" ∈ keys → preserves (same_but keys) LegalClassifier.classify.
Proof.
  intros Hin. unfold LegalClassifier.classify. repeat preserves_step.
  apply preserves_for_clause; [apply _|]. intros c c'. by apply classify_clause_same_but.
Qed.

Lemma preserves_rule_extract keys :
  "has_obligation" ∈ keys → preserves (same_but keys) ObligationExtractor.extract.
Proof.
  intros Hin. unfold ObligationExtractor.extract. repeat preserves_step.
  apply preserves_for_clause; [apply _|]. intros c c'. by apply extract_clause_same_but.
Qed.

(** A stage that ends with [return clauses] returns the list it leaves. *)
Lemma returns_clauses {A} (m : Py.M A) st returned :
  (Py.bind m (λ _, Py.return_clauses) st).2 = Ok returned →
  returned = (Py.bind m (λ _, Py.return_clauses) st).1.
Proof.
  unfold Py.bind, Py.return_clauses. destruct (m st) as [st' [a|e]]; simpl; congruence.
Qed.

Lemma stage_frame_intro keys stage cs :
  keys ⊆ annotation_fields →
  preserves (same_but keys) stage →
  (∀ returned, (stage cs).2 = Ok returned → returned = (stage cs).1) →
  stage_frame keys stage cs.
Proof.
  intros Hkeys Hpres Hret. specialize (Hpres cs). split_and!; [done..| | |done].
  - symmetry. by eapply Forall2_length.
  - intros i c Hc. destruct (Forall2_lookup_l _ _ _ _ _ Hpres Hc) as (c' & Hc' & Hsame).
    exists c'. split; [done|].
    split_and!; apply Hsame; intros Hin; apply Hkeys in Hin;
      unfold annotation_fields in Hin;
      rewrite !elem_of_cons, elem_of_nil in Hin;
      destruct Hin as [Hin|[Hin|[Hin|[]]]]; discriminate Hin.
Qed.

Lemma annotation_keys keys :
  Forall (λ k, k ∈ annotation_fields) keys → keys ⊆ annotation_fields.
Proof. intros Hall k Hk. by eapply (proj1 (list.Forall_forall _ _) Hall). Qed.

(** C9.  Each of the classification and extraction stages, rule-based or
    model-backed (the classes of the classification and extraction
    packages and the two stage methods of the orchestrator), leaves the
    clause list with the same dicts at the same positions, whether it
    returns or raises, and returns that list: no clause is reordered,
    dropped or duplicated, and a stage changes fields among [label],
    [has_obligation] and [obligation_details] only, so [id], [text] and
    [page] are as before. *)
Theorem stages_change_annotations_only (cs : list Clause) :
  (∀ self, stage_frame ["label"] (GeminiClassifier.classify json_loads repr self) cs)
  ∧ (∀ self, stage_frame ["has_obligation"; "obligation_details"]
               (GeminiExtractor.extract json_loads repr self) cs)
  ∧ stage_frame ["label"] LegalClassifier.classify cs
  ∧ stage_frame ["has_obligation"] ObligationExtractor.extract cs
  ∧ (∀ self calls,
       stage_frame ["label"]
         (LegalAgentOrchestrator.classify_clauses json_loads repr self calls) cs)
  ∧ (∀ self calls,
       stage_frame ["has_obligation"; "obligation_details"]
         (LegalAgentOrchestrator.extract_obligations json_loads repr self calls) cs).
Proof.
  split_and!.
  - intros self. apply stage_frame_intro.
    + apply annotation_keys. unfold annotation_fields. repeat constructor.
    + apply preserves_classify. by left.
    + unfold GeminiClassifier.classify.
      destruct (GeminiClassifier._model self); [|done].
      intros returned. unfold Py.bind at 1 3, Py.len. simpl. apply returns_clauses.
  - intros self. apply stage_frame_intro.
    + apply annotation_keys. unfold annotation_fields.
      repeat constructor; by repeat first [left|right].
    + apply preserves_extract; by repeat first [left|right].
    + unfold GeminiExtractor.extract.
      destruct (GeminiExtractor._model self); [|done].
      intros returned. unfold Py.bind at 1 3, Py.len. simpl. apply returns_clauses.
  - apply stage_frame_intro.
    + apply annotation_keys. unfold annotation_fields. repeat constructor.
    + apply preserves_rule_classify. by left.
    + apply returns_clauses.
  - apply stage_frame_intro.
    + apply annotation_keys. unfold annotation_fields.
      repeat constructor; by repeat first [left|right].
    + apply preserves_rule_extract. by left.
    + apply returns_clauses.
  - intros self calls. apply stage_frame_intro.
    + apply annotation_keys. unfold annotation_fields. repeat constructor.
    + apply preserves_classify_clauses. by left.
    + unfold LegalAgentOrchestrator.classify_clauses.
      destruct (LegalAgentOrchestrator.gemini_model self); [|done].
      intros returned. unfold Py.bind at 1 3, Py.len. simpl. apply returns_clauses.
  - intros self calls. apply stage_frame_intro.
    + apply annotation_keys. unfold annotation_fields.
      repeat constructor; by repeat first [left|right].
    + apply preserves_extract_obligations; by repeat first [left|right].
    + unfold LegalAgentOrchestrator.extract_obligations.
      destruct (LegalAgentOrchestrator.gemini_model self); [|done].
      intros returned. unfold Py.bind at 1 3, Py.len. simpl. apply returns_clauses.
Qed.

End Frame.

(** ** The parse-and-update step *)

Section ParseAndUpdate.

Variable json_loads : string → result pyval.

(** No exception of the body of the classification loop is one the
    handler takes. *)
Lemma update_label_raise item st st' e :
  GeminiClassifier.update_label item st = (st', Raise e) → parse_failure e = false.
Proof.
  unfold GeminiClassifier.update_label, Py.bind, Py.lift, Py.len, Py.setitem, Py.ret.
  unfold Py.get, Py.in_range, Py.position.
  intros H. repeat (case_match; simplify_eq/=); done.
Qed.

Lemma for_each_raise {X} (body : X → Py.M unit) (P : exn → Prop) l st st' e :
  (∀ x st st' e, body x st = (st', Raise e) → P e) →
  Py.for_each l body st = (st', Raise e) → P e.
Proof.
  intros Hbody. revert st. induction l as [|x l IH]; intros st; simpl; [done|].
  unfold Py.bind. destruct (body x st) as [st1 [[]|e1]] eqn:Hx.
  - apply IH.
  - intros; simplify_eq. by eapply Hbody.
Qed.

(** When the [try] block raises an exception that the handler takes, it
    is the decoder that raised it, and no dict has been touched. *)
Lemma classifier_try_body_failure response_text st st' e :
  GeminiClassifier.try_body json_loads response_text st = (st', Raise e) →
  parse_failure e = true →
  json_loads (unfence response_text) = Raise e ∧ st' = st.
Proof.
  unfold GeminiClassifier.try_body, Py.bind at 1, Py.lift at 1.
  destruct (json_loads _) as [v|e1]; [|by intros; simplify_eq].
  unfold Py.bind, Py.lift.
  destruct (Py.iter v) as [items|e2] eqn:Hiter.
  - intros Hloop He. eapply (for_each_raise _ (λ e, parse_failure e = false)) in Hloop;
      [congruence|apply update_label_raise].
  - intros; simplify_eq. destruct v; simplify_eq/=.
Qed.


Lemma default_label_spec st :
  (Py.for_clause GeminiClassifier.default_label st).2 = Ok tt
  ∧ Forall2 (λ c c' : Clause,
       match c !! "label" with
       | Some _ => c' = c
       | None => c' = <["label" := PyStr "General"]> c
       end) st (Py.for_clause GeminiClassifier.default_label st).1.
Proof.
  induction st as [|c st [IHr IH]]; simpl; [by split; [|constructor]|].
  unfold GeminiClassifier.default_label at 1 3.
  destruct (c !! "label") eqn:Hc; destruct (Py.for_clause _ st) as [st' r];
    simpl in *; (split; [done|]); constructor; try done; by rewrite Hc.
Qed.


End ParseAndUpdate.


(** The scenario of the specification: the answer "not json" for a batch
    of two clauses without labels gives both the label "General", and
    nothing is raised. *)
Example not_json_defaults_to_general :
  let clauses :=
    [ Sample.clause "page_1_clause_1" "Fees are due." 1;
      Sample.clause "page_1_clause_2" "One year." 1 ] in
  let after :=
    GeminiClassifier._parse_and_update_clauses Sample.loads Sample.not_json clauses in
  after.2 = Ok tt
  ∧ Scenario.field "label" after.1 = [Some (PyStr "General"); Some (PyStr "General")].
Proof. split; vm_compute; reflexivity. Qed.

Section Escapes.

Variable json_loads : string → result pyval.

Lemma escapes_first_item response_text clauses item rest e :
  json_loads (unfence response_text) = Ok (PyList (item :: rest)) →
  parse_failure e = false →
  GeminiClassifier.update_label item clauses = (clauses, Raise e) →
  GeminiExtractor.update_obligation item clauses = (clauses, Raise e) →
  escapes json_loads response_text clauses e.
Proof.
  intros Hv He Hc Hx. split.
  - unfold GeminiClassifier._parse_and_update_clauses, Py.try_except,
      GeminiClassifier.try_body, Py.bind at 1, Py.lift at 1.
    rewrite Hv. unfold Py.bind at 1, Py.lift at 1. simpl.
    unfold Py.bind at 1. by rewrite Hc, He.
  - unfold GeminiExtractor._parse_and_update_clauses, Py.try_except,
      GeminiExtractor.try_body, Py.bind at 1, Py.lift at 1.
    rewrite Hv. unfold Py.bind at 1, Py.lift at 1. simpl.
    unfold Py.bind at 1. by rewrite Hx, He.
Qed.

Lemma escapes_not_iterable response_text clauses v :
  json_loads (unfence response_text) = Ok v →
  Py.iter v = Raise TypeError →
  escapes json_loads response_text clauses TypeError.
Proof.
  intros Hv Hiter. split.
  - unfold GeminiClassifier._parse_and_update_clauses, Py.try_except,
      GeminiClassifier.try_body, Py.bind at 1, Py.lift at 1.
    rewrite Hv. unfold Py.bind at 1, Py.lift at 1. by rewrite Hiter.
  - unfold GeminiExtractor._parse_and_update_clauses, Py.try_except,
      GeminiExtractor.try_body, Py.bind at 1, Py.lift at 1.
    rewrite Hv. unfold Py.bind at 1, Py.lift at 1. by rewrite Hiter.
Qed.

Lemma escapes_items response_text clauses v item rest e :
  json_loads (unfence response_text) = Ok v →
  Py.iter v = Ok (item :: rest) →
  parse_failure e = false →
  GeminiClassifier.update_label item clauses = (clauses, Raise e) →
  GeminiExtractor.update_obligation item clauses = (clauses, Raise e) →
  escapes json_loads response_text clauses e.
Proof.
  intros Hv Hiter He Hc Hx. split.
  - unfold GeminiClassifier._parse_and_update_clauses, Py.try_except,
      GeminiClassifier.try_body, Py.bind at 1, Py.lift at 1.
    rewrite Hv. unfold Py.bind at 1, Py.lift at 1. rewrite Hiter. simpl.
    unfold Py.bind at 1. by rewrite Hc, He.
  - unfold GeminiExtractor._parse_and_update_clauses, Py.try_except,
      GeminiExtractor.try_body, Py.bind at 1, Py.lift at 1.
    rewrite Hv. unfold Py.bind at 1, Py.lift at 1. rewrite Hiter. simpl.
    unfold Py.bind at 1. by rewrite Hx, He.
Qed.

(** C2 (what the code does).  A response that decodes to JSON but not to
    an array of objects with integer indices is not handled as a parse
    failure: a scalar, a non-empty object, a non-empty string, an array
    whose first element is not an object, or an array whose first object
    has a string, null, array or object as index makes both
    parse-and-update steps raise [TypeError] or [AttributeError] to the
    caller, and no default is assigned. *)
Theorem malformed_response_escapes (clauses : list Clause) response_text v :
  json_loads (unfence response_text) = Ok v →
  match v with
  | PyNone | PyBool _ | PyInt _ | PyFloat _ =>
      escapes json_loads response_text clauses TypeError
  | PyStr s => s ≠ "" → escapes json_loads response_text clauses AttributeError
  | PyDict d => d ≠ ∅ → escapes json_loads response_text clauses AttributeError
  | PyList [] => True
  | PyList (PyDict d :: _) =>
      match d !! "index" with
      | Some (PyNone | PyStr _ | PyList _ | PyDict _) =>
          escapes json_loads response_text clauses TypeError
      | _ => True
      end
  | PyList (_ :: _) => escapes json_loads response_text clauses AttributeError
  end.
Proof.
  intros Hv. destruct v as [| | | |s|[|item rest]|d];
    try (by apply (escapes_not_iterable _ _ _ Hv)); try done.
  - intros Hs. destruct s as [|c s]; [done|].
    by eapply (escapes_items _ _ _ _ _ _ Hv).
  - destruct item as [| | | | | |d];
      try (by eapply (escapes_first_item _ _ _ _ _ Hv)).
    destruct (d !! "index") as [[]|] eqn:Hd; try done;
      (eapply (escapes_first_item _ _ _ _ _ Hv); [done|..]);
      unfold GeminiClassifier.update_label, GeminiExtractor.update_obligation,
        Py.bind, Py.lift, Py.get; by rewrite Hd.
  - intros Hd. destruct (map_to_list d) as [|[k x] kvs] eqn:Hkvs.
    { by apply map_to_list_empty_iff in Hkvs. }
    eapply (escapes_items _ _ _ _ _ _ Hv); [by simpl; rewrite Hkvs|done..].
Qed.

End Escapes.

Lemma malformed_response_escapes_witness :
  escapes Sample.loads Sample.array_of_strings
    [Sample.clause "page_1_clause_1" "Fees are due." 1] AttributeError.
Proof.
  apply (malformed_response_escapes Sample.loads
           [Sample.clause "page_1_clause_1" "Fees are due." 1]
           Sample.array_of_strings (PyList [PyStr "Termination"])).
  vm_compute. reflexivity.
Defined.

(** ** Retrieval *)

Section RetrievalFacts.

Context {vec : Type}.
Variable encode : pyval → result vec.
Variable l2 : vec → vec → Q.

Lemma insert_by_perm x l : Faiss.insert_by x l ≡ₚ x :: l.
Proof.
  induction l as [|y l IH]; simpl; [done|].
  case_match; [|done]. rewrite IH. apply Permutation_swap.
Qed.

Lemma foldl_insert_by_perm l acc :
  foldl (λ acc x, Faiss.insert_by x acc) acc l ≡ₚ l ++ acc.
Proof.
  revert acc. induction l as [|x l IH]; intros acc; simpl; [done|].
  rewrite IH, insert_by_perm. by rewrite Permutation_middle.
Qed.

(** The ranking lists every stored position once. *)
Lemma ranked_perm (ix : Faiss.IndexFlatL2) q :
  Faiss.ranked l2 ix q ≡ₚ seq 0 (length (Faiss.xb ix)).
Proof.
  unfold Faiss.ranked. rewrite foldl_insert_by_perm, app_nil_r.
  rewrite <-list_fmap_compose. unfold Str.enumerate.
  rewrite <-(fst_zip (seq 0 (length (Faiss.xb ix))) (Faiss.xb ix)) at 2
    by (by rewrite length_seq).
  apply reflexive_eq, list_fmap_ext. by intros ? [].
Qed.

Lemma comprehension_length {A B} (f : A → result B) l ys :
  FaissRetriever.comprehension f l = Ok ys → length ys = length l.
Proof.
  revert ys. induction l as [|x l IH]; intros ys; simpl; [by intros; simplify_eq|].
  destruct (f x); [|done]. destruct (FaissRetriever.comprehension f l); [|done].
  intros; simplify_eq. simpl. f_equal. by apply IH.
Qed.

Lemma comprehension_app {A B} (f : A → result B) l1 l2' ys1 ys2 :
  FaissRetriever.comprehension f l1 = Ok ys1 →
  FaissRetriever.comprehension f l2' = Ok ys2 →
  FaissRetriever.comprehension f (l1 ++ l2') = Ok (ys1 ++ ys2).
Proof.
  revert ys1. induction l1 as [|x l1 IH]; intros ys1; simpl.
  - by intros; simplify_eq.
  - destruct (f x); [|done]. destruct (FaissRetriever.comprehension f l1); [|done].
    intros; simplify_eq. by rewrite (IH _ eq_refl).
Qed.

Lemma comprehension_replicate {A B} (f : A → result B) x y n :
  f x = Ok y → FaissRetriever.comprehension f (replicate n x) = Ok (replicate n y).
Proof. intros Hx. induction n as [|n IH]; simpl; [done|]. by rewrite Hx, IH. Qed.

Lemma getitem_nonneg (clauses : list Clause) p c :
  clauses !! p = Some c → FaissRetriever.getitem clauses (Z.of_nat p) = Ok c.
Proof.
  intros Hc. pose proof (lookup_lt_Some _ _ _ Hc) as Hlt.
  unfold FaissRetriever.getitem, Py.position.
  rewrite (proj2 (Z.leb_le 0 (Z.of_nat p))) by lia.
  rewrite (proj2 (Z.ltb_lt (Z.of_nat p) (Z.of_nat (length clauses)))) by lia.
  simpl. by rewrite Nat2Z.id, Hc.
Qed.

(** The label [-1] addresses the last clause. *)
Lemma getitem_minus_one (clauses : list Clause) c :
  last clauses = Some c → FaissRetriever.getitem clauses (-1) = Ok c.
Proof.
  intros Hc. rewrite last_lookup in Hc. pose proof (lookup_lt_Some _ _ _ Hc) as Hlt.
  unfold FaissRetriever.getitem, Py.position. simpl.
  rewrite (proj2 (Z.leb_le (- Z.of_nat (length clauses)) (-1))) by lia. simpl.
  replace (Z.to_nat (Z.of_nat (length clauses) + -1)) with (pred (length clauses)) by lia.
  by rewrite Hc.
Qed.

Lemma comprehension_positions (clauses : list Clause) ps :
  Forall (λ p, p < length clauses)%nat ps →
  FaissRetriever.comprehension (FaissRetriever.getitem clauses) (Z.of_nat <$> ps)
  = Ok (omap (clauses !!.) ps).
Proof.
  induction 1 as [|p ps Hp _ IH]; [done|].
  destruct (lookup_lt_is_Some_2 _ _ Hp) as [c Hc].
  rewrite fmap_cons. cbn [FaissRetriever.comprehension].
  rewrite (getitem_nonneg _ _ _ Hc), IH. simpl. by rewrite Hc.
Qed.

Lemma omap_lookup_seq_from {A} (l pre : list A) :
  omap ((pre ++ l) !!.) (seq (length pre) (length l)) = l.
Proof.
  revert pre. induction l as [|x l IH]; intros pre; [done|].
  simpl. rewrite list_lookup_middle by done. f_equal.
  specialize (IH (pre ++ [x])). rewrite <-(assoc_L (++)) in IH. simpl in IH.
  rewrite length_app, Nat.add_1_r in IH. exact IH.
Qed.

Lemma omap_lookup_seq {A} (l : list A) : omap (l !!.) (seq 0 (length l)) = l.
Proof. apply (omap_lookup_seq_from l []). Qed.

Lemma index_built (clauses : list Clause) self :
  FaissRetriever.index encode FaissRetriever.init clauses = (self, Ok tt) →
  ∃ ix, FaissRetriever._index self = Some ix
        ∧ length (Faiss.xb ix) = length clauses
        ∧ FaissRetriever.clauses self = clauses
        ∧ clauses ≠ [].
Proof.
  unfold FaissRetriever.index.
  destruct (FaissRetriever.comprehension _ clauses) as [texts|] eqn:Htexts;
    [|by intros; simplify_eq].
  destruct (FaissRetriever.comprehension encode texts) as [[|v vs]|] eqn:Hvs;
    intros Heq; simplify_eq.
  apply comprehension_length in Htexts. apply comprehension_length in Hvs.
  eexists. split_and!; [done| |done|].
  - simpl in *. congruence.
  - intros ->. simpl in *. congruence.
Qed.

(** C7.  With no index built, whatever the query and [k], [retrieve]
    returns the empty list and raises nothing. *)
Theorem retrieve_before_index (self : FaissRetriever.t) (query : string) (k : Z) :
  FaissRetriever._index self = None →
  FaissRetriever.retrieve encode l2 self query k = Ok [].
Proof. intros Hnone. unfold FaissRetriever.retrieve. by rewrite Hnone. Qed.

(** C4 (what the code does).  On an index built over [n] clauses, a
    query with [k > n] returns [k] clauses: the [n] indexed clauses,
    nearest first, followed by [k - n] further references to the last
    clause of the list, which the padding label [-1] addresses.  The
    result is longer than [n] and repeats a clause. *)
Theorem retrieve_pads_with_last_clause (clauses : list Clause)
    (self : FaissRetriever.t) (query : string) (k : Z) (query_embedding : vec) :
  FaissRetriever.index encode FaissRetriever.init clauses = (self, Ok tt) →
  encode (PyStr query) = Ok query_embedding →
  Z.of_nat (length clauses) < k →
  ∃ found last_clause,
    FaissRetriever.retrieve encode l2 self query k
    = Ok (found ++ replicate (Z.to_nat k - length clauses) last_clause)
    ∧ found ≡ₚ clauses
    ∧ last clauses = Some last_clause
    ∧ (length clauses < length (found ++ replicate (Z.to_nat k - length clauses) last_clause))%nat
    ∧ ¬ NoDup (found ++ replicate (Z.to_nat k - length clauses) last_clause).
Proof.
  intros Hindex Hq Hk.
  destruct (index_built _ _ Hindex) as (ix & Hix & Hlen & Hcs & Hne).
  destruct (last clauses) as [last_clause|] eqn:Hlast;
    [|by apply last_None in Hlast].
  pose proof (ranked_perm ix query_embedding) as Hperm. rewrite Hlen in Hperm.
  exists (omap (clauses !!.) (Faiss.ranked l2 ix query_embedding)), last_clause.
  assert (omap (clauses !!.) (Faiss.ranked l2 ix query_embedding) ≡ₚ clauses) as Hfound.
  { rewrite Hperm. by rewrite omap_lookup_seq. }
  assert (length (Faiss.ranked l2 ix query_embedding) = length clauses) as Hrl.
  { by rewrite Hperm, length_seq. }
  split_and!; [|done|done|..].
  - unfold FaissRetriever.retrieve. rewrite Hix, Hq, Hcs.
    rewrite (proj2 (Z.leb_gt k 0)) by lia. unfold Faiss.search.
    rewrite take_ge by lia. rewrite Hrl. apply comprehension_app.
    + apply comprehension_positions. rewrite Hperm.
      apply list.Forall_forall. intros p Hp. apply elem_of_seq in Hp. lia.
    + apply comprehension_replicate. by apply getitem_minus_one.
  - rewrite length_app, length_replicate, Hfound. lia.
  - intros Hnodup. apply NoDup_app in Hnodup as (_ & Hdisj & _).
    apply (Hdisj last_clause).
    + rewrite Hfound. rewrite last_lookup in Hlast. by eapply list_elem_of_lookup_2.
    + destruct (Z.to_nat k - length clauses)%nat as [|m] eqn:Hm; [lia|]. simpl. by left.
Qed.

End RetrievalFacts.

Lemma retrieve_before_index_witness :
  FaissRetriever.retrieve Sample.encode Sample.l2 FaissRetriever.init
    "What are the termination conditions?" 5 = Ok [].
Proof. apply (retrieve_before_index Sample.encode Sample.l2). reflexivity. Defined.

Lemma retrieve_pads_with_last_clause_witness :
  let clauses := PDFIngestor.ingest Scenario.document in
  let self := (FaissRetriever.index Sample.encode FaissRetriever.init clauses).1 in
  ∃ found last_clause,
    FaissRetriever.retrieve Sample.encode Sample.l2 self
      "What are the termination conditions?" 5
    = Ok (found ++ replicate (Z.to_nat 5 - length clauses) last_clause)
    ∧ found ≡ₚ clauses
    ∧ last clauses = Some last_clause
    ∧ (length clauses
       < length (found ++ replicate (Z.to_nat 5 - length clauses) last_clause))%nat
    ∧ ¬ NoDup (found ++ replicate (Z.to_nat 5 - length clauses) last_clause).
Proof.
  intros clauses self.
  apply (retrieve_pads_with_last_clause Sample.encode Sample.l2 clauses self
           "What are the termination conditions?" 5 36).
  - vm_compute. reflexivity.
  - vm_compute. reflexivity.
  - vm_compute. reflexivity.
Defined.

(** The same run, spelled out: five clauses are returned for three
    indexed ones, the last three of them the last clause. *)
Example retrieve_five_of_three :
  let clauses := PDFIngestor.ingest Scenario.document in
  let self := (FaissRetriever.index Sample.encode FaissRetriever.init clauses).1 in
  match FaissRetriever.retrieve Sample.encode Sample.l2 self
          "What are the termination conditions?" 5 with
  | Ok retrieved =>
      Scenario.field "id" retrieved
      = [Some (PyStr "page_1_clause_2"); Some (PyStr "page_1_clause_1");
         Some (PyStr "page_2_clause_1"); Some (PyStr "page_2_clause_1");
         Some (PyStr "page_2_clause_1")]
  | Raise _ => False
  end.
Proof. vm_compute. reflexivity. Qed.

(** ** The batch loop *)

Section BatchLoop.

Lemma preserves_for_each_in (R : relation Clause) `{!PreOrder R} {X}
    (l : list X) (body : X → Py.M unit) :
  (∀ x, x ∈ l → preserves R (body x)) → preserves R (Py.for_each l body).
Proof.
  induction l as [|x l IH]; intros Hbody; simpl.
  - by apply preserves_ret.
  - apply preserves_bind; [done|apply Hbody; by left|].
    intros _. apply IH. intros y Hy. apply Hbody. by right.
Qed.

Global Instance always_related_preorder : PreOrder (λ _ _ : Clause, True).
Proof. by split. Qed.

(** A computation that preserves anything keeps the number of dicts. *)
Lemma preserves_length {A} (R : relation Clause) (m : Py.M A) st :
  preserves R m → length (m st).1 = length st.
Proof. intros Hm. symmetry. eapply Forall2_length, Hm. Qed.

Lemma zip_seq_fmap {B} (f : nat → B) m s :
  zip (seq s m) (f <$> seq s m) = (λ j, (j, f j)) <$> seq s m.
Proof.
  revert s. induction m as [|m IH]; intros s; [done|].
  cbn [seq]. rewrite !fmap_cons. cbn [zip zip_with]. by rewrite IH.
Qed.

Lemma enumerate_range_step n size :
  Str.enumerate (Py.range_step n size)
  = (λ j, (j, j * size)%nat) <$> seq 0 ((n + size - 1) / size)%nat.
Proof.
  unfold Str.enumerate, Py.range_step. rewrite length_fmap, length_seq.
  apply zip_seq_fmap.
Qed.

Lemma batch_count n size :
  (0 < size)%nat →
  let m := ((n + size - 1) / size)%nat in
  (n ≤ m * size)%nat ∧ ∀ m', m = S m' → (m' * size < n)%nat.
Proof.
  intros Hsize m. pose proof (Nat.div_mod_eq (n + size - 1) size) as Hdm.
  pose proof (Nat.mod_upper_bound (n + size - 1) size ltac:(lia)) as Hlt.
  fold m in Hdm. split; [nia|]. intros m' Hm'. nia.
Qed.

(** Handling one batch: unless the prompt or the call raises, which
    leaves the batch as it is, the response is parsed. *)
Lemma batch_body_cases (prompt : Py.M string) (model : annotator)
    (parse : string → Py.M unit) j batch batch' r :
  (∀ st, (prompt st).1 = st) →
  (p <- prompt ;; response_text <- Py.lift (model j p) ;; parse response_text) batch
  = (batch', r) →
  (batch' = batch ∧ ∃ e, r = Raise e)
  ∨ ∃ p response_text,
      model j p = Ok response_text ∧ parse response_text batch = (batch', r).
Proof.
  intros Hprompt. unfold Py.bind, Py.lift. specialize (Hprompt batch).
  destruct (prompt batch) as [st [p|e]]; simpl in Hprompt; subst st.
  - destruct (model j p) as [response_text|e] eqn:Hresponse.
    + intros Hparse. right. by exists p, response_text.
    + intros; simplify_eq. left. eauto.
  - intros; simplify_eq. left. eauto.
Qed.

(** Building a prompt reads the clauses only. *)
Lemma prompt_state repr (template : string → string) st :
  ((text <- clauses_text repr ;; Py.ret (template text)) st).1 = st.
Proof. unfold Py.bind, clauses_text, Py.ret. by destruct (foldl _ _ _). Qed.

Context (Pre Post Q : Clause → Prop).
Context (body : nat → Py.M unit) (step : nat * nat → Py.M unit) (size n : nat).
Hypothesis Pre_Q : ∀ c, Pre c → Q c.
Hypothesis Post_Q : ∀ c, Post c → Q c.
Hypothesis step_body : ∀ j i, step (j, i) = Py.on_slice i size (body j).
(** What handling one batch achieves: [Q] in any case, [Post] when it
    returns. *)
Hypothesis body_spec : ∀ j batch,
  length batch = (size `min` (n - j * size))%nat → Forall Pre batch →
  length (body j batch).1 = length batch
  ∧ Forall Q (body j batch).1
  ∧ ((body j batch).2 = Ok tt → Forall Post (body j batch).1).

Lemma batch_loop_from len : ∀ j0 finished todo st' r,
  n = (length finished + length todo)%nat →
  (len ≠ 0%nat → length finished = (j0 * size)%nat) →
  (length todo ≤ len * size)%nat →
  (∀ len', len = S len' → (len' * size < length todo)%nat) →
  Forall Post finished → Forall Pre todo →
  Py.for_each ((λ j, (j, j * size)%nat) <$> seq j0 len) step (finished ++ todo)
  = (st', r) →
  Forall Q st' ∧ (r = Ok tt → Forall Post st').
Proof.
  induction len as [|len IH];
    intros j0 finished todo st' r Hn Hfin Hle Hgt Hpost Hpre Hrun.
  - simpl in *. assert (todo = []) as -> by (apply length_zero_iff_nil; lia).
    rewrite app_nil_r in Hrun. unfold Py.ret in Hrun. simplify_eq.
    split; [|done]. eapply Forall_impl; [done|apply Post_Q].
  - specialize (Hfin ltac:(done)). cbn [seq fmap list_fmap Py.for_each] in Hrun.
    rewrite step_body in Hrun. unfold Py.bind, Py.on_slice in Hrun.
    rewrite <-drop_drop in Hrun.
    rewrite take_app_length', !drop_app_length' in Hrun by done.
    destruct (body_spec j0 (take size todo)) as (Hlen & HQ & HPost).
    { rewrite length_take. lia. }
    { by apply Forall_take. }
    destruct (body j0 (take size todo)) as [batch [[]|e]]; simpl in *.
    + rewrite (assoc_L (++)) in Hrun. eapply IH; [..|exact Hrun].
      * rewrite length_app, length_drop, Hlen, length_take in *. lia.
      * intros Hlen'. destruct len as [|len']; [done|].
        specialize (Hgt _ eq_refl).
        rewrite length_app, Hlen, length_take. lia.
      * rewrite length_drop. lia.
      * intros len' ->. specialize (Hgt _ eq_refl). rewrite length_drop. lia.
      * apply Forall_app. split; [done|by apply HPost].
      * by apply Forall_drop.
    + simplify_eq. split; [|done]. rewrite !Forall_app. split_and!; [|done|].
      * eapply Forall_impl; [done|apply Post_Q].
      * eapply Forall_impl; [by apply Forall_drop|apply Pre_Q].
Qed.

(** The loop over the batches of a clause list. *)
Lemma batch_loop (st st' : list Clause) r :
  (0 < size)%nat → n = length st → Forall Pre st →
  Py.for_each (Str.enumerate (Py.range_step n size)) step st = (st', r) →
  Forall Q st' ∧ (r = Ok tt → Forall Post st').
Proof.
  intros Hsize Hn Hpre. rewrite enumerate_range_step.
  destruct (batch_count n size Hsize) as [Hle Hgt].
  apply (batch_loop_from _ 0%nat [] st); simpl; [done|done|lia| |done..].
  intros m' Hm'. rewrite <-Hn. by apply Hgt.
Qed.

End BatchLoop.

(** ** Classification *)

Section ClassificationFacts.

Variable json_loads : string → result pyval.
Variable repr : pyval → string.

Global Instance stays_categorised_preorder : PreOrder stays_categorised.
Proof. split; [by intros c ?|]. intros c1 c2 c3 H12 H23 H. by apply H23, H12. Qed.

Lemma categorised_insert (c : Clause) name :
  name ∈ categories → categorised (<["label" := PyStr name]> c).
Proof. intros Hin. exists name. by rewrite lookup_insert_eq. Qed.

(** An item changes nothing, or stores its category at its index. *)
Lemma update_label_cases item st :
  (GeminiClassifier.update_label item st).1 = st
  ∨ ∃ idx category,
      Py.get item "category" (PyStr "General") = Ok category
      ∧ GeminiClassifier.update_label item st = Py.setitem idx "label" category st.
Proof.
  unfold GeminiClassifier.update_label, Py.bind, Py.lift, Py.len.
  destruct (Py.get item "index" (PyInt (-1))) as [idx|]; [|by left].
  destruct (Py.get item "category" (PyStr "General")) as [category|]; [|by left].
  destruct (Py.in_range idx (length st)) as [[]|]; [|by left..].
  right. by exists idx, category.
Qed.

Lemma update_label_stays item :
  item_category_known item →
  preserves stays_categorised (GeminiClassifier.update_label item).
Proof.
  intros Hknown st. destruct (update_label_cases item st) as [->|Hset].
  - apply related_refl; apply _.
  - destruct Hset as (idx & category & Hcat & ->).
    destruct (Hknown _ Hcat) as (name & -> & Hname).
    apply preserves_setitem; [apply _|]. intros c _. by apply categorised_insert.
Qed.

Lemma update_label_any item :
  preserves (λ _ _, True) (GeminiClassifier.update_label item).
Proof.
  unfold GeminiClassifier.update_label. repeat preserves_step.
  by apply preserves_setitem; [apply _|].
Qed.

Lemma update_label_length item st :
  length (GeminiClassifier.update_label item st).1 = length st.
Proof. apply (preserves_length (λ _ _, True)), update_label_any. Qed.

(** An item that returns normally has labelled its target. *)
Lemma update_label_target item st st' p :
  item_category_known item →
  GeminiClassifier.update_label item st = (st', Ok tt) →
  item_target (length st) item = Some p →
  ∃ c', st' !! p = Some c' ∧ categorised c'.
Proof.
  intros Hknown. unfold GeminiClassifier.update_label, item_target.
  unfold Py.bind, Py.lift, Py.len, Py.setitem.
  destruct (Py.get item "index" (PyInt (-1))) as [idx|] eqn:Hidx; [|done].
  destruct (Py.get item "category" (PyStr "General")) as [category|] eqn:Hcat;
    [|done].
  destruct (Hknown _ Hcat) as (name & -> & Hname).
  destruct (Py.in_range idx (length st)) as [[]|]; [|done..].
  destruct (Py.position idx (length st)) as [q|] eqn:Hq; [|done].
  intros Hrun Hp. assert (q = p) as -> by congruence. injection Hrun as <-.
  assert (p < length st)%nat as Hlt.
  { clear Hp. unfold Py.position in Hq. destruct idx; simplify_eq;
      repeat (case_match; simplify_eq); lia. }
  destruct (lookup_lt_is_Some_2 _ _ Hlt) as [c Hc].
  exists (<["label" := PyStr name]> c). split; [|by apply categorised_insert].
  by rewrite list_lookup_alter_eq, Hc.
Qed.

Lemma for_each_update_label_targets items : ∀ st st' item p,
  Forall item_category_known items →
  Py.for_each items GeminiClassifier.update_label st = (st', Ok tt) →
  item ∈ items → item_target (length st) item = Some p →
  ∃ c', st' !! p = Some c' ∧ categorised c'.
Proof.
  induction items as [|x items IH]; intros st st' item p Hknown Hrun Hin Hp.
  { by apply elem_of_nil in Hin. }
  apply Forall_cons in Hknown as [Hx Hknown].
  cbn [Py.for_each] in Hrun. unfold Py.bind in Hrun.
  destruct (GeminiClassifier.update_label x st) as [st1 [[]|e]] eqn:Hrun1; [|done].
  pose proof (update_label_length x st) as Hlen. rewrite Hrun1 in Hlen. simpl in Hlen.
  apply elem_of_cons in Hin as [->|Hin].
  - destruct (update_label_target _ _ _ _ Hx Hrun1 Hp) as (c1 & Hc1 & Hcat1).
    assert (preserves stays_categorised
              (Py.for_each items GeminiClassifier.update_label)) as Hpres.
    { apply preserves_for_each_in; [apply _|]. intros y Hy.
      apply update_label_stays. by eapply (proj1 (list.Forall_forall _ _) Hknown). }
    specialize (Hpres st1). rewrite Hrun in Hpres. simpl in Hpres.
    destruct (Forall2_lookup_l _ _ _ _ _ Hpres Hc1) as (c' & Hc' & Hstay).
    exists c'. split; [done|by apply Hstay].
  - eapply IH; [done|exact Hrun|done|by rewrite Hlen].
Qed.

(** The failure path labels every clause of the batch. *)
Lemma default_label_categorised st :
  Forall label_absent_or_categorised st →
  Forall categorised (Py.for_clause GeminiClassifier.default_label st).1.
Proof.
  intros Hst. destruct (default_label_spec st) as [_ Hspec].
  revert Hst Hspec. generalize (Py.for_clause GeminiClassifier.default_label st).1.
  intros st' Hst Hspec. induction Hspec as [|c c' st st' Hc _ IH]; [done|].
  apply Forall_cons in Hst as [Hc0 Hst]. constructor; [|by apply IH].
  destruct Hc0 as [Hnone|Hcat].
  - rewrite Hnone in Hc. subst c'. apply categorised_insert.
    unfold categories. set_solver.
  - destruct Hcat as (name & Hname & Hin). rewrite Hname in Hc. subst c'.
    by exists name.
Qed.

(** One batch: when the step returns, on a response that fails to decode
    or covers the batch, every clause of the batch has a label of the
    set. *)
Lemma parse_categorises batch response_text batch' :
  Forall label_absent_or_categorised batch →
  (∀ v, json_loads (unfence response_text) = Ok v → covers_batch (length batch) v) →
  GeminiClassifier._parse_and_update_clauses json_loads response_text batch
  = (batch', Ok tt) →
  Forall categorised batch'.
Proof.
  intros Hbatch Hcovers. unfold GeminiClassifier._parse_and_update_clauses, Py.try_except.
  destruct (GeminiClassifier.try_body json_loads response_text batch)
    as [st1 [[]|e]] eqn:Htry.
  - intros ?; simplify_eq. revert Htry.
    unfold GeminiClassifier.try_body, Py.bind at 1, Py.lift at 1.
    destruct (json_loads (unfence response_text)) as [v|] eqn:Hv; [|done].
    unfold Py.bind at 1, Py.lift at 1.
    destruct (Py.iter v) as [items|] eqn:Hiter; [|done].
    intros Hrun. destruct (Hcovers v eq_refl items Hiter) as [Hknown Hall].
    assert (length batch' = length batch) as Hlen.
    { replace batch' with
        (Py.for_each items GeminiClassifier.update_label batch).1 by by rewrite Hrun.
      apply (preserves_length (λ _ _, True)).
      apply preserves_for_each; [apply _|]. apply update_label_any. }
    apply Forall_lookup. intros p c' Hc'.
    destruct (Hall p) as (item & Hin & Hp).
    { rewrite <-Hlen. by eapply lookup_lt_Some. }
    destruct (for_each_update_label_targets _ _ _ _ _ Hknown Hrun Hin Hp)
      as (c'' & Hc'' & Hcat). by simplify_eq.
  - destruct (parse_failure e) eqn:He; [|done].
    destruct (classifier_try_body_failure _ _ _ _ _ Htry He) as [_ ->].
    intros Hrun. pose proof (default_label_categorised batch Hbatch) as Hd.
    by rewrite Hrun in Hd.
Qed.

End ClassificationFacts.

Section ClassificationStage.

Variable json_loads : string → result pyval.
Variable repr : pyval → string.

(** C1 (amended).  When the classification stage returns, over clauses
    whose labels, where present, are of the category set, and with
    responses each of which either fails to decode or decodes to items that
    carry categories of the set and address every position of their batch,
    every clause carries a label of the nine-category set; the list
    returned is the list of these clauses. *)
Theorem classify_categorises_covered (self : GeminiClassifier.t) (model : annotator)
    (clauses st' returned : list Clause) :
  GeminiClassifier._model self = Some model →
  Forall label_absent_or_categorised clauses →
  (∀ j prompt response_text v,
     model j prompt = Ok response_text →
     json_loads (unfence response_text) = Ok v →
     covers_batch (10 `min` (length clauses - j * 10))%nat v) →
  GeminiClassifier.classify json_loads repr self clauses = (st', Ok returned) →
  returned = st' ∧ Forall categorised st'.
Proof.
  intros Hmodel Hpre Hcovers. unfold GeminiClassifier.classify. rewrite Hmodel.
  unfold Py.bind at 1, Py.len at 1. unfold Py.bind at 1.
  destruct (Py.for_each _ _ clauses) as [st1 [[]|e]] eqn:Hloop; [|done].
  unfold Py.return_clauses. intros ?; simplify_eq. split; [done|].
  eapply (batch_loop label_absent_or_categorised categorised (λ _, True)
            (λ j, prompt <- GeminiClassifier._create_classification_prompt repr ;;
                  response_text <- Py.lift (model j prompt) ;;
                  GeminiClassifier._parse_and_update_clauses json_loads response_text)
            (GeminiClassifier.classify_batch json_loads repr model)
            GeminiClassifier.batch_size (length clauses));
    [done|done|done| | |done|done|exact Hloop|done].
  - intros j batch Hlen Hbatch. split_and!; [|by apply Forall_true|].
    + apply (preserves_length (same_but ["label"])).
      unfold GeminiClassifier._create_classification_prompt.
      repeat preserves_step. apply preserves_classifier_parse. set_solver.
    + destruct (Py.bind _ _ batch) as [batch' r] eqn:Hbody. simpl. intros ->.
      apply batch_body_cases in Hbody as [[_ [e ?]]|(p & response_text & Hr & Hparse)];
        [done| |intros st; apply prompt_state].
      eapply parse_categorises; [done| |exact Hparse].
      intros v Hv. rewrite Hlen. by eapply Hcovers.
  - unfold GeminiClassifier.batch_size. lia.
Qed.

End ClassificationStage.

Lemma classify_categorises_covered_witness :
  let self := {| GeminiClassifier.model_name := "gemini-2.5-pro";
                 GeminiClassifier._model := Some (Sample.always Sample.fenced_payment) |} in
  let clauses := [Sample.clause "page_1_clause_1" "Fees are due." 1] in
  let labelled := [<["label" := PyStr "Payment"]> (Sample.clause "page_1_clause_1" "Fees are due." 1)] in
  GeminiClassifier.classify Sample.loads Sample.repr self clauses = (labelled, Ok labelled)
  ∧ Forall categorised labelled.
Proof.
  intros self clauses labelled.
  assert (GeminiClassifier.classify Sample.loads Sample.repr self clauses
          = (labelled, Ok labelled)) as Hrun by (vm_compute; reflexivity).
  split; [exact Hrun|].
  apply (classify_categorises_covered Sample.loads Sample.repr self
           (Sample.always Sample.fenced_payment) clauses labelled labelled).
  - reflexivity.
  - repeat constructor.
  - intros j prompt response_text v [= <-]. vm_compute.
    intros [= <-] items [= <-]. split.
    + repeat constructor. intros category [= <-]. exists "Payment".
      split; [done|]. unfold categories. by repeat first [left|right].
    + intros p Hp. destruct j; simpl in Hp; [|lia].
      assert (p = 0%nat) as -> by lia. eexists. split; [by left|]. reflexivity.
  - exact Hrun.
Defined.

(** C1 (as stated) fails: a response that decodes to the empty array
    leaves the clause of its batch without a label, and nothing labels it
    afterwards. *)
Lemma classify_leaves_unlabelled :
  ¬ ∀ (json_loads : string → result pyval) (repr : pyval → string)
      (self : GeminiClassifier.t) (clauses st' returned : list Clause),
      GeminiClassifier.classify json_loads repr self clauses = (st', Ok returned) →
      Forall categorised st'.
Proof.
  intros Hclaim.
  pose (self := {| GeminiClassifier.model_name := "gemini-2.5-pro";
                   GeminiClassifier._model := Some (Sample.always Sample.empty_array) |}).
  pose (clauses := [Sample.clause "page_1_clause_1" "Fees are due." 1]).
  specialize (Hclaim Sample.loads Sample.repr self clauses clauses clauses).
  apply Forall_cons in Hclaim as [(category & Hlabel & _) _].
  - vm_compute in Hlabel. discriminate.
  - vm_compute. reflexivity.
Qed.

(** A category outside the set is stored as the label. *)
Example classify_stores_unknown_category :
  let self := {| GeminiClassifier.model_name := "gemini-2.5-pro";
                 GeminiClassifier._model := Some (Sample.always Sample.unknown_category) |} in
  let clauses := [Sample.clause "page_1_clause_1" "Fees are due." 1] in
  (λ c : Clause, c !! "label")
    <$> (GeminiClassifier.classify Sample.loads Sample.repr self clauses).1
  = [Some (PyStr "Miscellaneous")].
Proof. vm_compute. reflexivity. Qed.

(** ** Extraction *)

Section ExtractionFacts.

Variable json_loads : string → result pyval.
Variable repr : pyval → string.

Global Instance keeps_details_preorder : PreOrder keeps_details_with_obligation.
Proof. split; [by intros c ?|]. intros c1 c2 c3 H12 H23 H. by apply H23, H12. Qed.














End ExtractionFacts.



(** The details stored need not be a string: any true value is taken. *)
Example extract_stores_number_as_details :
  let self := {| GeminiExtractor.model_name := "gemini-2.5-pro";
                 GeminiExtractor._model := Some (Sample.always Sample.obligation_number) |} in
  let clauses := [Sample.clause "page_1_clause_1" "The Buyer shall pay." 1] in
  Scenario.field "obligation_details"
    (GeminiExtractor.extract Sample.loads Sample.repr self clauses).1
  = [Some (PyInt 30)].
Proof. vm_compute. reflexivity. Qed.

(** ** The fallback of [process_document] *)

Section Fallback.

Variable json_loads : string → result pyval.
Variable repr : pyval → string.
Variable connect : string → result annotator.
Variable summary_prompt : list Clause → result string.

Lemma classify_clause_keyword c s :
  c !! "text" = Some (PyStr s) →
  LegalClassifier.classify_clause c = Ok (<["label" := PyStr (keyword_label s)]> c).
Proof.
  intros Hs. unfold LegalClassifier.classify_clause, keyword_label. rewrite Hs.
  simpl. by repeat case_match.
Qed.

Lemma extract_clause_keyword c s :
  c !! "text" = Some (PyStr s) →
  ObligationExtractor.extract_clause c
  = Ok (<["has_obligation" := PyBool (keyword_obligation s)]> c).
Proof.
  intros Hs. unfold ObligationExtractor.extract_clause, keyword_obligation. rewrite Hs.
  simpl. by case_match.
Qed.

(** A loop whose body returns for every clause returns. *)
Lemma for_clause_total body (R : relation Clause) st :
  Forall (λ c, ∃ c', body c = Ok c' ∧ R c c') st →
  (Py.for_clause body st).2 = Ok tt ∧ Forall2 R st (Py.for_clause body st).1.
Proof.
  induction 1 as [|c st (c' & Hc & HR) _ [IHr IH]]; simpl; [by split; [|constructor]|].
  rewrite Hc. destruct (Py.for_clause body st) as [st' r]. simpl in *.
  split; [done|by constructor].
Qed.

(** On clauses with string texts the rule-based stages return, and give
    every clause the label and the flag of the keyword rules. *)
Lemma fallback_rule_based st :
  Forall has_text st →
  (StreamlitApp.fallback st).2 = Ok None
  ∧ Forall2 rule_based st (StreamlitApp.fallback st).1.
Proof.
  intros Hst. unfold StreamlitApp.fallback, LegalClassifier.classify,
    ObligationExtractor.extract, Py.bind, Py.return_clauses, Py.ret.
  destruct (for_clause_total LegalClassifier.classify_clause
              (λ c c', ∃ s, c !! "text" = Some (PyStr s)
                            ∧ c' = <["label" := PyStr (keyword_label s)]> c) st)
    as [Hr1 H1].
  { eapply Forall_impl; [done|]. intros c [s Hs]. eexists. split; [|by eauto].
    by apply classify_clause_keyword. }
  destruct (Py.for_clause LegalClassifier.classify_clause st) as [st1 r1].
  simpl in *. subst r1.
  destruct (for_clause_total ObligationExtractor.extract_clause
              (λ c c', ∃ s, c !! "text" = Some (PyStr s)
                            ∧ c' = <["has_obligation" := PyBool (keyword_obligation s)]> c)
              st1) as [Hr2 H2].
  { eapply Forall2_Forall_r; [exact H1|]. apply Forall_true.
    intros c c1 (s & Hs & ->). exists (<["has_obligation" := PyBool (keyword_obligation s)]>
      (<["label" := PyStr (keyword_label s)]> c)).
    assert (<["label" := PyStr (keyword_label s)]> c !! "text" = Some (PyStr s)) as Hs1
      by by rewrite lookup_insert_ne.
    split; [by apply extract_clause_keyword|by eauto]. }
  destruct (Py.for_clause ObligationExtractor.extract_clause st1) as [st2 r2].
  simpl in *. subst r2. split; [done|].
  eapply Forall2_trans; [|exact H1|exact H2].
  intros c c1 c2 (s & Hs & ->) (s' & Hs' & ->).
  rewrite lookup_insert_ne in Hs' by done. assert (s' = s) as -> by congruence.
  exists s. split_and!; [done|by simplify_map_eq..|].
  intros k Hk. rewrite !lookup_insert_ne; [done|intros <-; apply Hk; set_solver..].
Qed.

Lemma preserves_analysis api_key :
  preserves (same_but annotation_fields)
    (StreamlitApp.analysis json_loads repr connect summary_prompt api_key).
Proof.
  unfold StreamlitApp.analysis. case_match.
  - apply preserves_bind; [apply _|apply preserves_lift; apply _|]. intros orchestrator.
    apply preserves_bind; [apply _|apply preserves_len; apply _|]. intros n.
    apply preserves_bind; [apply _|apply preserves_classify_clauses; set_solver|].
    intros _.
    apply preserves_bind; [apply _|apply preserves_extract_obligations; set_solver|].
    intros _. apply preserves_bind; [apply _| |intros ?; apply preserves_ret; apply _].
    unfold LegalAgentOrchestrator.generate_summary.
    case_match; [|apply preserves_raise; apply _].
    apply preserves_bind; [apply _| |intros ?; apply preserves_lift; apply _].
    intros st. apply related_refl. apply _.
  - apply preserves_bind; [apply _|apply preserves_rule_classify; set_solver|].
    intros _.
    apply preserves_bind; [apply _|apply preserves_rule_extract; set_solver|].
    intros _. apply preserves_ret. apply _.
Qed.

(** C6 (amended).  When the analysis raises, at whatever point, over
    clauses with string texts, [process_document] runs the rule-based
    classifier and extractor over every clause: they return, no summary is
    kept, and every clause gets the label and the obligation flag of the
    keyword rules for its text, in place of any label or flag a batch had
    stored before the exception; the other fields, [obligation_details]
    among them, stay as the analysis left them, and [id], [text] and
    [page] as they were at the start. *)
Theorem fallback_overwrites_annotations (api_key : string)
    (clauses at_raise : list Clause) (e : exn) :
  Forall has_text clauses →
  StreamlitApp.analysis json_loads repr connect summary_prompt api_key clauses
  = (at_raise, Raise e) →
  let after :=
    Py.try_except
      (StreamlitApp.analysis json_loads repr connect summary_prompt api_key)
      (λ _, true) StreamlitApp.fallback clauses in
  after.2 = Ok None
  ∧ Forall2 rule_based at_raise after.1
  ∧ Forall2 (same_but annotation_fields) clauses at_raise.
Proof.
  intros Htext Hrun. simpl. unfold Py.try_except. rewrite Hrun.
  pose proof (preserves_analysis api_key clauses) as Hframe.
  rewrite Hrun in Hframe. simpl in Hframe.
  assert (Forall has_text at_raise) as Htext'.
  { eapply Forall2_Forall_r; [exact Hframe|]. eapply Forall_impl; [exact Htext|].
    intros c [s Hs] c' Hsame. exists s. rewrite Hsame; [done|].
    unfold annotation_fields. intros Hin.
    repeat (apply elem_of_cons in Hin as [Hin|Hin]; [discriminate Hin|]).
    by apply elem_of_nil in Hin. }
  destruct (fallback_rule_based at_raise Htext') as [Hr Hrule]. by split_and!.
Qed.

End Fallback.

Lemma fallback_overwrites_annotations_witness :
  let at_raise :=
    (StreamlitApp.analysis Sample.loads Sample.repr Scenario.connect
       Scenario.summary_prompt "key" Scenario.eleven).1 in
  let after :=
    Py.try_except
      (StreamlitApp.analysis Sample.loads Sample.repr Scenario.connect
         Scenario.summary_prompt "key")
      (λ _, true) StreamlitApp.fallback Scenario.eleven in
  after.2 = Ok None
  ∧ Forall2 rule_based at_raise after.1
  ∧ Forall2 (same_but annotation_fields) Scenario.eleven at_raise.
Proof.
  intros at_raise.
  apply (fallback_overwrites_annotations Sample.loads Sample.repr Scenario.connect
           Scenario.summary_prompt "key" Scenario.eleven at_raise
           (ExternalError "DeadlineExceeded")).
  - repeat constructor; eexists; vm_compute; reflexivity.
  - vm_compute. reflexivity.
Defined.

(** C6 (as stated) fails: the first batch of eleven clauses stores the
    label "Payment" on the first clause, the call for the second batch
    raises, and the fallback replaces that label by "General". *)
Lemma fallback_replaces_obtained_label :
  ¬ ∀ (json_loads : string → result pyval) (repr : pyval → string)
      (connect : string → result annotator)
      (summary_prompt : list Clause → result string)
      (api_key : string) (clauses at_raise : list Clause) (e : exn),
      StreamlitApp.analysis json_loads repr connect summary_prompt api_key clauses
      = (at_raise, Raise e) →
      Forall2 (λ before after : Clause,
                 ∀ label, before !! "label" = Some label →
                          after !! "label" = Some label)
        at_raise
        (Py.try_except
           (StreamlitApp.analysis json_loads repr connect summary_prompt api_key)
           (λ _, true) StreamlitApp.fallback clauses).1.
Proof.
  intros Hclaim.
  specialize (Hclaim Sample.loads Sample.repr Scenario.connect Scenario.summary_prompt
                "key" Scenario.eleven _ (ExternalError "DeadlineExceeded")
                ltac:(vm_compute; reflexivity)).
  apply Forall2_cons_1 in Hclaim as [Hlabel _].
  specialize (Hlabel (PyStr "Payment") ltac:(vm_compute; reflexivity)).
  vm_compute in Hlabel. discriminate.
Qed.

(** ** The scenario of the specification *)

(** C3 (as stated) fails: in the two-page scenario the rule-based
    classifier does not label the first clause "Termination" and the
    second "Confidentiality". *)
Lemma scenario_labels_not_as_stated :
  ¬ (length (PDFIngestor.ingest Scenario.document) = 3%nat
     ∧ Scenario.field "label" Scenario.analysed
       = [Some (PyStr "Termination"); Some (PyStr "Confidentiality");
          Some (PyStr "General")]
     ∧ Scenario.field "has_obligation" Scenario.analysed
       = [Some (PyBool true); Some (PyBool true); Some (PyBool false)]).
Proof. intros (_ & Hlabels & _). vm_compute in Hlabels. discriminate. Qed.

(** C3 (amended).  In the two-page scenario the segmenter yields three
    clauses, with the texts of the three segments; the rule-based
    classifier labels all three "General", as neither "termination" nor
    "confidentiality" occurs in "... shall terminate ..." and
    "Confidential information ..."; the rule-based extractor sets
    [has_obligation] to true for clauses 1 and 2 and to false for
    clause 3. *)
Theorem scenario_rule_based :
  length (PDFIngestor.ingest Scenario.document) = 3%nat
  ∧ Scenario.field "id" (PDFIngestor.ingest Scenario.document)
    = [Some (PyStr "page_1_clause_1"); Some (PyStr "page_1_clause_2");
       Some (PyStr "page_2_clause_1")]
  ∧ Scenario.field "text" (PDFIngestor.ingest Scenario.document)
    = [Some (PyStr "This Agreement shall terminate upon 30 days notice.");
       Some (PyStr "Confidential information must not be disclosed.");
       Some (PyStr "General terms apply.")]
  ∧ Scenario.field "label" Scenario.analysed
    = [Some (PyStr "General"); Some (PyStr "General"); Some (PyStr "General")]
  ∧ Scenario.field "has_obligation" Scenario.analysed
    = [Some (PyBool true); Some (PyBool true); Some (PyBool false)].
Proof. split_and!; vm_compute; reflexivity. Qed.

(** The keywords themselves are recognised. *)
Example keyword_labels :
  keyword_label "Termination of this Agreement requires notice." = "Termination"
  ∧ keyword_label "Each party shall indemnify the other." = "Indemnification"
  ∧ keyword_label "Confidentiality survives." = "Confidentiality"
  ∧ keyword_label "This Agreement shall terminate upon 30 days notice." = "General".
Proof. split_and!; vm_compute; reflexivity. Qed.
